(** * The cbl++ wrapper over the Couchbase Lite C API

    A shallow embedding of [include/cbl++/Database.hh] and
    [include/cbl++/Document.hh]: the C++ convenience classes [Database],
    [Document], [MutableDocument] and [Batch], written as functions in a
    state-and-exception monad over the native engine they call into.

    The native C functions are an interface ([CBLNative]); every result
    below holds for any engine that implements it.  A small in-memory
    engine ([Toy.engine]) instantiates the interface for concrete runs. *)

From Stdlib Require Import String NArith ZArith List Bool Arith Lia.
Import ListNotations.
Local Open Scope string_scope.
Local Open Scope Z_scope.
Local Open Scope list_scope.

(** ** Data of the C API *)

(** [fleece::slice] and [FLString] are a pointer and a length over bytes;
    [(slice* )docIDs] reinterprets one as the other. *)
Definition slice := string.
Definition FLString := string.

(** Address of a live native object behind [CBLRefCounted*]; a nullable
    pointer is an [option], [None] being [nullptr]. *)
Definition CBLRefCounted := N.
Definition pointer := option CBLRefCounted.

(** The error struct a native call fills in: the fields the wrapper reads
    ([error.domain], [error.code]) and the message it surfaces. *)
Record CBLError := mkError {
  domain : Z;
  code : Z;
  message : string
}.

Inductive CBLConcurrencyControl :=
| kCBLConcurrencyControlLastWriteWins
| kCBLConcurrencyControlFailOnConflict.

(** What a C++ [throw] carries: the wrapper throws [CBLError] by value;
    user callbacks may throw anything else. *)
Inductive Exn :=
| ExnCBL (e : CBLError)
| ExnUser (what : string).

(** How a call ends: it returns, it throws, or it has no defined
    behaviour (a null or dangling pointer is dereferenced, an array is
    read past its end). *)
Inductive Outcome (A : Type) :=
| Returned (a : A)
| Thrown (e : Exn)
| Undefined.
Arguments Returned {A} a.
Arguments Thrown {A} e.
Arguments Undefined {A}.

(** ** The C++ handle classes

    Each class derives from [RefCounted] and holds one nullable [_ref];
    [ref()] reads it and [operator bool] tests it against [nullptr]. *)
Record Database := mkDatabase { Database_ref : pointer }.
Record Document := mkDocument { Document_ref : pointer }.
Record MutableDocument := mkMutableDocument { MutableDocument_ref : pointer }.

Definition Database_valid (db : Database) : bool :=
  match Database_ref db with Some _ => true | None => false end.

(** [class MutableDocument : public Document]. *)
Definition MutableDocument_upcast (d : MutableDocument) : Document :=
  mkDocument (MutableDocument_ref d).

(** ** Behaviour of a native save that may call back

    [CBLDatabase_SaveDocumentWithConflictHandler] either returns, or
    invokes the handler it was given on [(myDoc, otherDoc)] and goes on
    according to the handler's answer.  The native state at each point is
    carried along, since the resolver may mutate the document in place. *)
Inductive SaveRun (S : Type) :=
| SaveReturns (ok : bool) (error : CBLError) (s : S)
| SaveCallsHandler (s : S) (myDoc otherDoc : pointer)
                   (k : bool -> S -> SaveRun S).
Arguments SaveReturns {S} ok error s.
Arguments SaveCallsHandler {S} s myDoc otherDoc k.

(** ** The native engine as an interface

    A fallible C function [bool f(..., CBLError *outError)] is a function
    of the native state giving the returned flag, the content of the
    caller's [error] local after the call, and the next state.  (Where the
    engine leaves [*outError] unwritten this content is the local's
    indeterminate initial value.) *)
Class CBLNative (S : Type) := {
  (* [CBLDomain] and [CBLErrorConflict] of CBLBase.h *)
  CBLDomain : Z;
  CBLErrorConflict : Z;
  CBL_DeleteDatabase : slice -> slice -> S -> bool * CBLError * S;
  CBLDatabase_GetDocument : pointer -> slice -> S -> pointer * CBLError * S;
  CBLDatabase_GetMutableDocument : pointer -> slice -> S -> pointer * CBLError * S;
  CBLDatabase_SaveDocumentWithConcurrencyControl :
    pointer -> pointer -> CBLConcurrencyControl -> S -> bool * CBLError * S;
  CBLDatabase_SaveDocumentWithConflictHandler :
    pointer -> pointer -> S -> SaveRun S;
  CBLDatabase_DeleteDocumentWithConcurrencyControl :
    pointer -> pointer -> CBLConcurrencyControl -> S -> bool * CBLError * S;
  CBLDatabase_PurgeDocument : pointer -> pointer -> S -> bool * CBLError * S;
  CBLDocument_MutableCopy : pointer -> S -> pointer * S;
  CBLDatabase_BeginBatch : pointer -> S -> bool * CBLError * S;
  CBLDatabase_EndBatch : pointer -> S -> bool * CBLError * S;
  (* the listener registrations take the trampoline and a context, here
     the context's address; they return a [CBLListenerToken*] *)
  CBLDatabase_AddChangeListener : pointer -> nat -> S -> pointer * S;
  CBLDatabase_AddDocumentChangeListener : pointer -> slice -> nat -> S -> pointer * S
}.

(** ** Observable events

    Every call the wrapper makes into the engine, and every user callback
    it invokes, is recorded, most recent first. *)
Inductive Event :=
| EvDeleteDatabase (name inDirectory : slice)
| EvGetDocument (db : pointer) (id : slice)
| EvGetMutableDocument (db : pointer) (id : slice)
| EvSave (db doc : pointer) (c : CBLConcurrencyControl)
| EvSaveWithHandler (db doc : pointer) (context : nat)
| EvResolver (documentBeingSaved : MutableDocument) (conflictingDocument : Document)
| EvDeleteDocument (db doc : pointer) (c : CBLConcurrencyControl)
| EvPurgeDocument (db doc : pointer)
| EvMutableCopy (doc : pointer)
| EvBeginBatch (db : pointer)
| EvEndBatch (db : pointer)
| EvLogWarning (text : string)
| EvAddChangeListener (db : pointer) (context : nat)
| EvAddDocumentChangeListener (db : pointer) (docID : slice) (context : nat)
| EvListener (db : Database) (docIDs : list slice)
| EvDocListener (db : Database) (docID : slice).

Definition is_EndBatch (e : Event) : bool :=
  match e with EvEndBatch _ => true | _ => false end.

Definition is_LogWarning (e : Event) : bool :=
  match e with EvLogWarning _ => true | _ => false end.

(** The concurrency-control policies that reached the engine's save. *)
Fixpoint save_policies (t : list Event) : list CBLConcurrencyControl :=
  match t with
  | [] => []
  | EvSave _ _ c :: t' => c :: save_policies t'
  | _ :: t' => save_policies t'
  end.

(** What the thread's exception machinery knows when a function is entered:
    the exceptions thrown and not yet caught (the stack is being unwound
    for them; [std::uncaught_exceptions()]), and the exception of the
    innermost active [catch] clause, which is what
    [std::current_exception()] returns (null when no handler is active). *)
Record CxxRuntime := mkRuntime {
  uncaught_exceptions : nat;
  current_exception : option Exn
}.

(** An exception is propagating when the stack is being unwound for it. *)
Definition propagating (rt : CxxRuntime) : bool :=
  negb (Nat.eqb (uncaught_exceptions rt) 0).

Declare Scope cxx_scope.
Delimit Scope cxx_scope with cxx.

Section Wrapper.
Context {S : Type} `{CBLNative S}.

(** ** User callbacks

    A callback is user code run on the calling thread: it may change the
    native state (a resolver merges into the document being saved) and it
    may throw. *)
Definition SaveConflictHandler : Type :=
  MutableDocument -> Document -> S -> Outcome bool * S.
Definition ListenerCallback : Type :=
  Database -> list slice -> S -> Outcome unit * S.
Definition DocumentListenerCallback : Type :=
  Database -> slice -> S -> Outcome unit * S.

(** A C++ callable object whose address is handed to the engine as the
    [void *context] of a registration. *)
Inductive Callable :=
| HeldResolver (f : SaveConflictHandler)
| HeldListener (f : ListenerCallback)
| HeldDocListener (f : DocumentListenerCallback).

(** ** The world a wrapper call runs in

    [native] is the engine's state; [mem] is the C++ memory holding
    callables, an address being an index and a destroyed object leaving
    [None] behind; [trace] is the record of events. *)
Record World := mkWorld {
  native : S;
  mem : list (option Callable);
  trace : list Event
}.

Definition M (A : Type) : Type := World -> Outcome A * World.

Definition ret {A} (a : A) : M A := fun w => (Returned a, w).
Definition throw {A} (e : CBLError) : M A := fun w => (Thrown (ExnCBL e), w).
Definition undefined {A} : M A := fun w => (Undefined, w).

Definition bind {A B} (m : M A) (f : A -> M B) : M B :=
  fun w =>
    match m w with
    | (Returned a, w') => f a w'
    | (Thrown e, w') => (Thrown e, w')
    | (Undefined, w') => (Undefined, w')
    end.

Notation "x <- m ;; k" := (bind m (fun x => k))
  (at level 61, m at next level, right associativity) : cxx_scope.
Notation "' p <- m ;; k" := (bind m (fun x => match x with p => k end))
  (at level 61, p pattern, m at next level, right associativity) : cxx_scope.
Notation "m ;; k" := (bind m (fun _ => k))
  (at level 61, right associativity) : cxx_scope.
Local Open Scope cxx_scope.

(** [*p] for a nullable pointer. *)
Definition deref {A} (p : option A) : M A :=
  match p with Some a => ret a | None => undefined end.

(** A call into the engine: the event is recorded and the native state
    advanced. *)
Definition native_call {A} (ev : Event) (f : S -> A * S) : M A :=
  fun w =>
    let (a, s') := f (native w) in
    (Returned a, mkWorld s' (mem w) (ev :: trace w)).

(** [CBL_Log(kCBLLogDomainDatabase, CBLLogWarning, text)]. *)
Definition CBL_Log_warning (text : string) : M unit :=
  fun w => (Returned tt, mkWorld (native w) (mem w) (EvLogWarning text :: trace w)).

(** Construction of a callable object: its address is the next free one. *)
Definition construct (c : Callable) : M nat :=
  fun w => (Returned (length (mem w)),
            mkWorld (native w) (mem w ++ [Some c]) (trace w)).

Fixpoint destroyed (a : nat) (m : list (option Callable)) : list (option Callable) :=
  match m, a with
  | [], _ => []
  | _ :: m', O => None :: m'
  | c :: m', Datatypes.S a' => c :: destroyed a' m'
  end.

(** A by-value parameter or local: constructed on entry, destroyed when
    the body is left, by return or by exception alike. *)
Definition with_local {A} (c : Callable) (body : nat -> M A) : M A :=
  fun w =>
    match construct c w with
    | (Returned a, w1) =>
        let (o, w2) := body a w1 in
        (o, mkWorld (native w2) (destroyed a (mem w2)) (trace w2))
    | (Thrown e, w1) => (Thrown e, w1)
    | (Undefined, w1) => (Undefined, w1)
    end.

(** Modelled from the spec: [RefCounted::check(bool, CBLError&)] of
    Base.hh, which is not among the sources.  A failed operation aborts
    the current call and surfaces the structured error to the caller;
    the comment in [Batch::end] likewise says [check(false, error)]
    throws. *)
Definition check (ok : bool) (error : CBLError) : M unit :=
  if ok then ret tt else throw error.

(** ** Document.hh: class Document *)

(** [static Document adopt(const CBLDocument *d, CBLError *error)]:
    [!d && error->code != 0] reads [*error] only when [d] is null. *)
Definition Document_adopt (d : pointer) (error : option CBLError) : M Document :=
  failed <- match d with
            | Some _ => ret false
            | None => e <- deref error ;; ret (negb (code e =? 0))
            end ;;
  if failed : bool then e <- deref error ;; throw e
  else ret (mkDocument d).

(** [static bool checkSave(bool saveResult, CBLError &error)]. *)
Definition Document_checkSave (saveResult : bool) (error : CBLError) : M bool :=
  if saveResult then ret true
  else if (code error =? CBLErrorConflict) && (domain error =? CBLDomain)
       then ret false
       else throw error.

(** ** Document.hh: class MutableDocument *)

(** [static MutableDocument adopt(CBLDocument *d, CBLError *error)]. *)
Definition MutableDocument_adopt (d : pointer) (error : option CBLError)
  : M MutableDocument :=
  failed <- match d with
            | Some _ => ret false
            | None => e <- deref error ;; ret (negb (code e =? 0))
            end ;;
  if failed : bool then e <- deref error ;; throw e
  else ret (mkMutableDocument d).

(** ** Document.hh: Database method bodies *)

Definition Database_getDocument (this : Database) (id : slice) : M Document :=
  '(d, error) <- native_call (EvGetDocument (Database_ref this) id)
                   (CBLDatabase_GetDocument (Database_ref this) id) ;;
  Document_adopt d (Some error).

Definition Database_getMutableDocument (this : Database) (id : slice)
  : M MutableDocument :=
  '(d, error) <- native_call (EvGetMutableDocument (Database_ref this) id)
                   (CBLDatabase_GetMutableDocument (Database_ref this) id) ;;
  MutableDocument_adopt d (Some error).

(** [bool Database::saveDocument(MutableDocument &doc, CBLConcurrencyControl c)]. *)
Definition Database_saveDocument_cc (this : Database) (doc : MutableDocument)
    (c : CBLConcurrencyControl) : M bool :=
  '(ok, error) <- native_call
       (EvSave (Database_ref this) (MutableDocument_ref doc) c)
       (CBLDatabase_SaveDocumentWithConcurrencyControl
          (Database_ref this) (MutableDocument_ref doc) c) ;;
  Document_checkSave ok error.

(** [void Database::saveDocument(MutableDocument &doc)]: the result of the
    two-argument overload is cast to [void]. *)
Definition Database_saveDocument_doc (this : Database) (doc : MutableDocument)
  : M unit :=
  _ <- Database_saveDocument_cc this doc kCBLConcurrencyControlLastWriteWins ;;
  ret tt.

(** The declaration in Database.hh,
    [saveDocument(MutableDocument &doc,
                  CBLConcurrencyControl c = kCBLConcurrencyControlFailOnConflict)]:
    a call that leaves [c] out gets the default argument. *)
Definition Database_saveDocument_decl (this : Database) (doc : MutableDocument)
    (c : option CBLConcurrencyControl) : M bool :=
  Database_saveDocument_cc this doc
    (match c with
     | Some c' => c'
     | None => kCBLConcurrencyControlFailOnConflict
     end).

(** The trampoline of the conflict-handler overload: [context] is cast
    back to [SaveConflictHandler* ], dereferenced and called on
    [MutableDocument(myDoc)] and [Document(otherDoc)]; a context that
    does not address a live resolver is a wild pointer. *)
Definition cHandler (context : nat) (myDoc otherDoc : pointer) : M bool :=
  fun w =>
    match nth_error (mem w) context with
    | Some (Some (HeldResolver f)) =>
        let mine := mkMutableDocument myDoc in
        let theirs := mkDocument otherDoc in
        let (o, s') := f mine theirs (native w) in
        (o, mkWorld s' (mem w) (EvResolver mine theirs :: trace w))
    | _ => (Undefined, w)
    end.

(** The engine running a save that was given [handler] and [context]:
    each callback it makes goes to [handler] with that same [context], on
    the calling thread, and the engine resumes with the answer. *)
Fixpoint run_native_save (handler : nat -> pointer -> pointer -> M bool)
    (context : nat) (r : SaveRun S) : M (bool * CBLError) :=
  fun w =>
    match r with
    | SaveReturns ok error s =>
        (Returned (ok, error), mkWorld s (mem w) (trace w))
    | SaveCallsHandler s myDoc otherDoc k =>
        match handler context myDoc otherDoc (mkWorld s (mem w) (trace w)) with
        | (Returned b, w') =>
            run_native_save handler context (k b (native w')) w'
        | (Thrown e, w') => (Thrown e, w')
        | (Undefined, w') => (Undefined, w')
        end
    end.

(** [bool Database::saveDocument(MutableDocument &doc,
                                 SaveConflictHandler conflictHandler)]:
    [conflictHandler] is a by-value parameter and [&conflictHandler] is
    the context. *)
Definition Database_saveDocument_handler (this : Database)
    (doc : MutableDocument) (conflictHandler : SaveConflictHandler) : M bool :=
  with_local (HeldResolver conflictHandler) (fun context =>
    '(ok, error) <-
       (fun w =>
          run_native_save cHandler context
            (CBLDatabase_SaveDocumentWithConflictHandler
               (Database_ref this) (MutableDocument_ref doc) (native w))
            (mkWorld (native w) (mem w)
               (EvSaveWithHandler (Database_ref this) (MutableDocument_ref doc)
                  context :: trace w))) ;;
    Document_checkSave ok error).

Definition Database_deleteDocument (this : Database) (doc : Document)
    (cc : CBLConcurrencyControl) : M bool :=
  '(ok, error) <- native_call
       (EvDeleteDocument (Database_ref this) (Document_ref doc) cc)
       (CBLDatabase_DeleteDocumentWithConcurrencyControl
          (Database_ref this) (Document_ref doc) cc) ;;
  Document_checkSave ok error.

Definition Database_purgeDocument (this : Database) (doc : Document) : M unit :=
  '(ok, error) <- native_call
       (EvPurgeDocument (Database_ref this) (Document_ref doc))
       (CBLDatabase_PurgeDocument (Database_ref this) (Document_ref doc)) ;;
  check ok error.

(** [MutableDocument::adopt(CBLDocument_MutableCopy(ref()), nullptr)]. *)
Definition Document_mutableCopy (this : Document) : M MutableDocument :=
  d <- native_call (EvMutableCopy (Document_ref this))
         (CBLDocument_MutableCopy (Document_ref this)) ;;
  MutableDocument_adopt d None.

(** ** Database.hh: class Database *)

(** [static void deleteDatabase(slice name, slice inDirectory)]. *)
Definition Database_deleteDatabase (name inDirectory : slice) : M unit :=
  '(ok, error) <- native_call (EvDeleteDatabase name inDirectory)
                    (CBL_DeleteDatabase name inDirectory) ;;
  if negb ok && negb (code error =? 0) then check false error
  else ret tt.

(** Modelled from the spec: [ListenerToken<Database, Args>] of Base.hh,
    which is not among the sources.  The token owns the context the engine
    is given; [call] is the bridge from that context to the user callback,
    invoked synchronously with the owner and the typed arguments. *)
Definition ListenerToken_call (context : nat) (db : Database)
    (docIDs : list slice) : M unit :=
  fun w =>
    match nth_error (mem w) context with
    | Some (Some (HeldListener f)) =>
        let (o, s') := f db docIDs (native w) in
        (o, mkWorld s' (mem w) (EvListener db docIDs :: trace w))
    | _ => (Undefined, w)
    end.

(** Modelled from the spec: [ListenerToken<Database, slice>::call] of
    Base.hh, the same bridge for a document listener. *)
Definition DocumentListenerToken_call (context : nat) (db : Database)
    (docID : slice) : M unit :=
  fun w =>
    match nth_error (mem w) context with
    | Some (Some (HeldDocListener f)) =>
        let (o, s') := f db docID (native w) in
        (o, mkWorld s' (mem w) (EvDocListener db docID :: trace w))
    | _ => (Undefined, w)
    end.

(** A registered listener as the caller holds it: the context it owns and
    the engine's [CBLListenerToken*]. *)
Record ListenerToken := mkListenerToken {
  ListenerToken_context : nat;
  ListenerToken_token : pointer
}.

(** [std::vector<slice> vec((slice* )&docIDs[0], (slice* )&docIDs[nDocs])]:
    the range constructor copies the [nDocs] first elements of the native
    array; a count past the array's end reads out of bounds. *)
Definition vector_of_range (docIDs : list FLString) (nDocs : N)
  : M (list slice) :=
  if (N.to_nat nDocs <=? length docIDs)%nat
  then ret (firstn (N.to_nat nDocs) docIDs)
  else undefined.

(** [static void _callListener(void *context, const CBLDatabase *db,
                               unsigned nDocs, FLString *docIDs)]. *)
Definition Database__callListener (context : nat) (db : pointer)
    (nDocs : N) (docIDs : list FLString) : M unit :=
  vec <- vector_of_range docIDs nDocs ;;
  ListenerToken_call context (mkDatabase db) vec.

(** [static void _callDocListener(void *context, const CBLDatabase *db,
                                  FLString docID)]. *)
Definition Database__callDocListener (context : nat) (db : pointer)
    (docID : FLString) : M unit :=
  DocumentListenerToken_call context (mkDatabase db) docID.

(** [Listener addListener(Listener::Callback f)].  Modelled from the
    spec: the constructor [Listener(f)], [context()] and [setToken] of
    Base.hh, which is not among the sources; the token owns the context
    that the engine is given, an object holding the callback. *)
Definition Database_addListener (this : Database) (f : ListenerCallback)
  : M ListenerToken :=
  context <- construct (HeldListener f) ;;
  token <- native_call (EvAddChangeListener (Database_ref this) context)
             (CBLDatabase_AddChangeListener (Database_ref this) context) ;;
  ret (mkListenerToken context token).

(** [DocumentListener addDocumentListener(slice docID,
                                          DocumentListener::Callback f)],
    with the token as in [addListener]. *)
Definition Database_addDocumentListener (this : Database) (docID : slice)
    (f : DocumentListenerCallback) : M ListenerToken :=
  context <- construct (HeldDocListener f) ;;
  token <- native_call
             (EvAddDocumentChangeListener (Database_ref this) docID context)
             (CBLDatabase_AddDocumentChangeListener (Database_ref this) docID context) ;;
  ret (mkListenerToken context token).

(** ** Database.hh: class Batch *)

Record Batch := mkBatch { _db : Database }.

(** A batch whose [_db] has been moved from. *)
Definition ended : Batch := mkBatch (mkDatabase None).

(** [explicit Batch(Database db)]. *)
Definition Batch_new (db : Database) : M Batch :=
  '(ok, error) <- native_call (EvBeginBatch (Database_ref db))
                    (CBLDatabase_BeginBatch (Database_ref db)) ;;
  check ok error ;;
  ret (mkBatch db).

(** The body of [Batch::end()] once [db] has been moved out of [_db]. *)
Definition Batch_end_body (rt : CxxRuntime) (db : Database) : M unit :=
  if Database_valid db then
    '(ok, error) <- native_call (EvEndBatch (Database_ref db))
                      (CBLDatabase_EndBatch (Database_ref db)) ;;
    if negb ok then
      match current_exception rt with
      | Some _ =>
          CBL_Log_warning "Batch::end failed, while handling an exception"
      | None => check false error
      end
    else ret tt
  else ret tt.

(** [void end()].  [Database db = std::move(_db)] leaves [_db] empty (the
    source says so: "clears _db"), whatever happens next; the member's new
    value is returned beside the outcome. *)
Definition Batch_end (rt : CxxRuntime) (this : Batch) (w : World)
  : Outcome unit * Batch * World :=
  let db := _db this in
  let this' := mkBatch (mkDatabase None) in
  let (o, w') := Batch_end_body rt db w in
  (o, this', w').

(** [~Batch() { end(); }]: the outcome of the destructor's body.  (An
    exception that leaves a destructor ends the process; the comment in
    [end()] is about that.) *)
Definition Batch_destructor (rt : CxxRuntime) (this : Batch) (w : World)
  : Outcome unit * Batch * World :=
  Batch_end rt this w.

(** How [end()] is reached. *)
Inductive EndCall :=
| ExplicitEnd
| ByDestructor.

Definition Batch_call (c : EndCall) : CxxRuntime -> Batch -> World
                                      -> Outcome unit * Batch * World :=
  match c with
  | ExplicitEnd => Batch_end
  | ByDestructor => Batch_destructor
  end.

(** A history of a [Batch] object: [end()] reached any number of times,
    each time by either route and under some state of the exception
    machinery.  Later calls are run whatever the earlier ones did. *)
Fixpoint Batch_history (calls : list (EndCall * CxxRuntime)) (this : Batch)
    (w : World) : list (Outcome unit) * Batch * World :=
  match calls with
  | [] => ([], this, w)
  | (c, rt) :: rest =>
      let '(o, this', w') := Batch_call c rt this w in
      let '(os, this'', w'') := Batch_history rest this' w' in
      (o :: os, this'', w'')
  end.

(** Number of times the engine's end-batch has run. *)
Definition end_batch_runs (w : World) : nat :=
  length (filter is_EndBatch (trace w)).

Definition warnings (w : World) : nat :=
  length (filter is_LogWarning (trace w)).

(** ** Reference readings used by the statements *)

(** The error a native save or delete reports for a conflict. *)
Definition conflict_error (error : CBLError) : Prop :=
  code error = CBLErrorConflict /\ domain error = CBLDomain.

(** A conflict-handler save as the caller thinks of it: each callback of
    the engine's run is answered by the resolver [h] itself, applied to
    the document being saved and the conflicting one; the invocations are
    recorded in front of [t]. *)
Fixpoint answered_by (h : SaveConflictHandler) (r : SaveRun S)
    (t : list Event) : Outcome (bool * CBLError) * S * list Event :=
  match r with
  | SaveReturns ok error s => (Returned (ok, error), s, t)
  | SaveCallsHandler s myDoc otherDoc k =>
      let mine := mkMutableDocument myDoc in
      let theirs := mkDocument otherDoc in
      match h mine theirs s with
      | (Returned b, s') => answered_by h (k b s') (EvResolver mine theirs :: t)
      | (Thrown e, s') => (Thrown e, s', EvResolver mine theirs :: t)
      | (Undefined, s') => (Undefined, s', EvResolver mine theirs :: t)
      end
  end.

(** The translation of a native save's flag and error into the wrapper's
    result, as the spec words it: true on success, false on a conflict,
    the error raised otherwise. *)
Definition save_contract (ok : bool) (error : CBLError) (o : Outcome bool) : Prop :=
  (ok = true -> o = Returned true) /\
  (o = Returned false <-> ok = false /\ conflict_error error) /\
  (ok = false -> ~ conflict_error error -> o = Thrown (ExnCBL error)).

End Wrapper.

Arguments SaveConflictHandler S : clear implicits.
Arguments ListenerCallback S : clear implicits.
Arguments DocumentListenerCallback S : clear implicits.
Arguments Callable S : clear implicits.
Arguments World S : clear implicits.
Arguments M S A : clear implicits.

(** * A small in-memory engine

    An implementation of [CBLNative] to run the wrapper on: documents are
    an id with a generation counter, a document object remembers the
    generation it was read at, and a fault can be injected to make the
    next fallible call fail. *)
Module Toy.

Record State := mkState {
  store : list (slice * Z);       (* committed documents: id, generation *)
  instances : list (slice * Z);   (* document objects by address *)
  batches : nat;                  (* open batches *)
  files : list slice;             (* names of the database files on disk *)
  registered : list nat;          (* contexts of the registered listeners *)
  fault : option CBLError         (* makes the next fallible call fail *)
}.

Definition no_error : CBLError := mkError 0 0 "".
Definition conflict : CBLError := mkError 1 8 "conflict".
Definition not_found : CBLError := mkError 1 7 "not found".
Definition invalid_parameter : CBLError := mkError 1 9 "invalid parameter".
Definition not_in_transaction : CBLError := mkError 1 20 "no batch is open".
Definition io_error : CBLError := mkError 1 16 "disk I/O error".

Fixpoint lookup (id : slice) (l : list (slice * Z)) : option Z :=
  match l with
  | [] => None
  | (k, g) :: l' => if String.eqb k id then Some g else lookup id l'
  end.

Fixpoint remove (id : slice) (l : list (slice * Z)) : list (slice * Z) :=
  match l with
  | [] => []
  | (k, g) :: l' => if String.eqb k id then remove id l' else (k, g) :: remove id l'
  end.

Fixpoint update {A} (n : nat) (a : A) (l : list A) : list A :=
  match l, n with
  | [], _ => []
  | _ :: l', O => a :: l'
  | x :: l', Datatypes.S n' => x :: update n' a l'
  end.

Definition instance_at (doc : pointer) (s : State) : option (slice * Z) :=
  match doc with
  | Some a => nth_error (instances s) (N.to_nat a)
  | None => None
  end.

Definition clear_fault (s : State) : State :=
  mkState (store s) (instances s) (batches s) (files s) (registered s) None.

Definition with_instance (i : slice * Z) (s : State) : pointer * State :=
  (Some (N.of_nat (length (instances s))),
   mkState (store s) (instances s ++ [i]) (batches s) (files s)
           (registered s) (fault s)).

(** The document object at [a] is committed as the next generation. *)
Definition commit (a : CBLRefCounted) (id : slice) (s : State) : State :=
  let g := match lookup id (store s) with Some g => g + 1 | None => 1 end in
  mkState ((id, g) :: remove id (store s))
          (update (N.to_nat a) (id, g) (instances s))
          (batches s) (files s) (registered s) (fault s).

Definition erase (id : slice) (s : State) : State :=
  mkState (remove id (store s)) (instances s) (batches s) (files s)
          (registered s) (fault s).

(** A document object is stale when the store has moved past the
    generation it was read at. *)
Definition stale (id : slice) (g : Z) (s : State) : bool :=
  match lookup id (store s) with
  | Some g' => negb (g' =? g)
  | None => negb (g =? 0)
  end.

Definition get_document (db : pointer) (id : slice) (s : State)
  : pointer * CBLError * State :=
  match fault s with
  | Some e => (None, e, clear_fault s)
  | None =>
      match lookup id (store s) with
      | Some g => let (p, s') := with_instance (id, g) s in (p, no_error, s')
      | None => (None, no_error, s)
      end
  end.

Definition save (db doc : pointer) (c : CBLConcurrencyControl) (s : State)
  : bool * CBLError * State :=
  match fault s with
  | Some e => (false, e, clear_fault s)
  | None =>
      match doc, instance_at doc s with
      | Some a, Some (id, g) =>
          match c with
          | kCBLConcurrencyControlFailOnConflict =>
              if stale id g s then (false, conflict, s)
              else (true, no_error, commit a id s)
          | kCBLConcurrencyControlLastWriteWins =>
              (true, no_error, commit a id s)
          end
      | _, _ => (false, invalid_parameter, s)
      end
  end.

(** On a conflict the handler is asked once; [true] commits what it left
    in the document, [false] abandons the save as a conflict. *)
Definition save_with_handler (db doc : pointer) (s : State) : SaveRun State :=
  match fault s with
  | Some e => SaveReturns false e (clear_fault s)
  | None =>
      match doc, instance_at doc s with
      | Some a, Some (id, g) =>
          if stale id g s then
            let (other, s1) :=
              match lookup id (store s) with
              | Some g' => with_instance (id, g') s
              | None => (None, s)
              end in
            SaveCallsHandler s1 doc other
              (fun b s2 => if b then SaveReturns true no_error (commit a id s2)
                           else SaveReturns false conflict s2)
          else SaveReturns true no_error (commit a id s)
      | _, _ => SaveReturns false invalid_parameter s
      end
  end.

Definition delete_document (db doc : pointer) (c : CBLConcurrencyControl)
    (s : State) : bool * CBLError * State :=
  match fault s with
  | Some e => (false, e, clear_fault s)
  | None =>
      match instance_at doc s with
      | Some (id, g) =>
          match c with
          | kCBLConcurrencyControlFailOnConflict =>
              if stale id g s then (false, conflict, s)
              else (true, no_error, erase id s)
          | kCBLConcurrencyControlLastWriteWins => (true, no_error, erase id s)
          end
      | None => (false, invalid_parameter, s)
      end
  end.

Definition purge_document (db doc : pointer) (s : State)
  : bool * CBLError * State :=
  match fault s with
  | Some e => (false, e, clear_fault s)
  | None =>
      match instance_at doc s with
      | Some (id, _) =>
          match lookup id (store s) with
          | Some _ => (true, no_error, erase id s)
          | None => (false, not_found, s)
          end
      | None => (false, invalid_parameter, s)
      end
  end.

Definition mutable_copy (doc : pointer) (s : State) : pointer * State :=
  match instance_at doc s with
  | Some i => with_instance i s
  | None => (None, s)
  end.

Definition begin_batch (db : pointer) (s : State) : bool * CBLError * State :=
  match fault s with
  | Some e => (false, e, clear_fault s)
  | None =>
      (true, no_error,
       mkState (store s) (instances s) (Datatypes.S (batches s)) (files s)
               (registered s) None)
  end.

Definition end_batch (db : pointer) (s : State) : bool * CBLError * State :=
  match fault s with
  | Some e => (false, e, clear_fault s)
  | None =>
      match batches s with
      | O => (false, not_in_transaction, s)
      | Datatypes.S n =>
          (true, no_error,
           mkState (store s) (instances s) n (files s) (registered s) None)
      end
  end.

(** Deleting a file that is not there fails without an error code. *)
Definition delete_database (name inDirectory : slice) (s : State)
  : bool * CBLError * State :=
  match fault s with
  | Some e => (false, e, clear_fault s)
  | None =>
      if existsb (String.eqb name) (files s)
      then (true, no_error,
            mkState (store s) (instances s) (batches s)
                    (filter (fun n => negb (String.eqb name n)) (files s))
                    (registered s) None)
      else (false, no_error, s)
  end.

Definition add_listener (db : pointer) (context : nat) (s : State)
  : pointer * State :=
  (Some (N.of_nat (length (registered s))),
   mkState (store s) (instances s) (batches s) (files s)
           (registered s ++ [context]) (fault s)).

#[export] Instance engine : CBLNative State := {
  CBLDomain := 1;
  CBLErrorConflict := 8;
  CBL_DeleteDatabase := delete_database;
  CBLDatabase_GetDocument := get_document;
  CBLDatabase_GetMutableDocument := get_document;
  CBLDatabase_SaveDocumentWithConcurrencyControl := save;
  CBLDatabase_SaveDocumentWithConflictHandler := save_with_handler;
  CBLDatabase_DeleteDocumentWithConcurrencyControl := delete_document;
  CBLDatabase_PurgeDocument := purge_document;
  CBLDocument_MutableCopy := mutable_copy;
  CBLDatabase_BeginBatch := begin_batch;
  CBLDatabase_EndBatch := end_batch;
  CBLDatabase_AddChangeListener := add_listener;
  CBLDatabase_AddDocumentChangeListener := fun db _ => add_listener db
}.

(** The database object, at address 0. *)
Definition db : Database := mkDatabase (Some 0%N).

(** Document "doc1" committed once; the object at address 0 was read at
    that generation, the one at address 1 before it was ever saved. *)
Definition s0 : State :=
  mkState [("doc1", 1)] [("doc1", 1); ("doc1", 0)] 0 ["d1"] [] None.

Definition fresh_doc : MutableDocument := mkMutableDocument (Some 0%N).
Definition stale_doc : MutableDocument := mkMutableDocument (Some 1%N).

Definition world (s : State) : World State := mkWorld s [] [].

(** A resolver that keeps its own version, and one that gives up. *)
Definition keep_mine : SaveConflictHandler State :=
  fun _ _ s => (Returned true, s).
Definition abandon : SaveConflictHandler State :=
  fun _ _ s => (Returned false, s).

(** Listener callbacks that only return. *)
Definition on_change : ListenerCallback State :=
  fun _ _ s => (Returned tt, s).
Definition on_document_change : DocumentListenerCallback State :=
  fun _ _ s => (Returned tt, s).

(** One batch is open and the next native call fails on I/O. *)
Definition failing_batch : State :=
  mkState [("doc1", 1)] [] 1 ["d1"] [] (Some io_error).

(** The stack is being unwound for one exception; no handler is active. *)
Definition unwinding : CxxRuntime := mkRuntime 1 None.

(** Inside a [catch] clause, nothing in flight. *)
Definition in_catch_clause : CxxRuntime :=
  mkRuntime 0 (Some (ExnUser "handled earlier")).

End Toy.

(** * The rest of Database.hh and Document.hh

    The file and lifecycle operations, expiration, indexes and
    [setPropertiesAsJSON].  Their native functions form a second
    interface; what the types of CBLDatabase.h and CBLQuery.h hold is
    opaque to the wrapper, which only passes them on. *)
Class CBLNativeFiles (S : Type) := {
  CBLDatabaseConfiguration : Type;
  CBLMaintenanceType : Type;
  CBLIndexSpec : Type;
  CBL_DatabaseExists : slice -> slice -> S -> bool * S;
  (* the configuration pointer may be null *)
  CBL_CopyDatabase :
    slice -> slice -> option CBLDatabaseConfiguration -> S -> bool * CBLError * S;
  CBLDatabase_Open :
    slice -> option CBLDatabaseConfiguration -> S -> pointer * CBLError * S;
  CBLDatabase_Close : pointer -> S -> bool * CBLError * S;
  CBLDatabase_Delete : pointer -> S -> bool * CBLError * S;
  CBLDatabase_PerformMaintenance :
    pointer -> CBLMaintenanceType -> S -> bool * CBLError * S;
  (* [time_t] is a signed integer *)
  CBLDatabase_GetDocumentExpiration : pointer -> slice -> S -> Z * CBLError * S;
  CBLDatabase_SetDocumentExpiration :
    pointer -> slice -> Z -> S -> bool * CBLError * S;
  CBLDatabase_PurgeDocumentByID : pointer -> slice -> S -> bool * CBLError * S;
  CBLDatabase_CreateIndex :
    pointer -> slice -> CBLIndexSpec -> S -> bool * CBLError * S;
  CBLDatabase_DeleteIndex : pointer -> slice -> S -> bool * CBLError * S;
  CBLDocument_SetJSON : pointer -> slice -> S -> bool * CBLError * S;
  (* the registration takes the trampoline and a context, here the
     context's address *)
  CBLDatabase_BufferNotifications : pointer -> nat -> S -> S;
  CBLDatabase_SendNotifications : pointer -> S -> S
}.

Section WrapperFiles.
Context {S : Type} `{CBLNative S} `{CBLNativeFiles S}.

Local Notation "x <- m ;; k" := (bind m (fun x => k))
  (at level 61, m at next level, right associativity).
Local Notation "' p <- m ;; k" := (bind m (fun x => match x with p => k end))
  (at level 61, p pattern, m at next level, right associativity).
Local Notation "m ;; k" := (bind m (fun _ => k))
  (at level 61, right associativity).

(** A call into the engine that advances the native state; the calls of
    this part of the API are not among the recorded events. *)
Definition native_step {A} (f : S -> A * S) : M S A :=
  fun w =>
    let (a, s') := f (native w) in
    (Returned a, mkWorld s' (mem w) (trace w)).

(** ** Database.hh: static database-file operations *)

Definition Database_exists (name inDirectory : slice) : M S bool :=
  native_step (CBL_DatabaseExists name inDirectory).

(** [copyDatabase(fromPath, toName)] passes [nullptr] for the
    configuration. *)
Definition Database_copyDatabase (fromPath toName : slice) : M S unit :=
  '(ok, error) <- native_step (CBL_CopyDatabase fromPath toName None) ;;
  check ok error.

Definition Database_copyDatabase_config (fromPath toName : slice)
    (config : CBLDatabaseConfiguration) : M S unit :=
  '(ok, error) <- native_step (CBL_CopyDatabase fromPath toName (Some config)) ;;
  check ok error.

(** ** Database.hh: lifecycle *)

(** [Database(slice name)]: [_ref] is what the engine's open returns and
    [check(_ref != nullptr, error)] guards it; when [check] throws no
    object is constructed. *)
Definition Database_new (name : slice) : M S Database :=
  '(r, error) <- native_step (CBLDatabase_Open name None) ;;
  check (match r with Some _ => true | None => false end) error ;;
  ret (mkDatabase r).

(** [Database(slice name, const CBLDatabaseConfiguration& config)]. *)
Definition Database_new_config (name : slice)
    (config : CBLDatabaseConfiguration) : M S Database :=
  '(r, error) <- native_step (CBLDatabase_Open name (Some config)) ;;
  check (match r with Some _ => true | None => false end) error ;;
  ret (mkDatabase r).

Definition Database_close (this : Database) : M S unit :=
  '(ok, error) <- native_step (CBLDatabase_Close (Database_ref this)) ;;
  check ok error.

(** [void deleteDatabase()], the member function. *)
Definition Database_deleteDatabase_member (this : Database) : M S unit :=
  '(ok, error) <- native_step (CBLDatabase_Delete (Database_ref this)) ;;
  check ok error.

Definition Database_performMaintenance (this : Database)
    (type : CBLMaintenanceType) : M S unit :=
  '(ok, error) <- native_step
       (CBLDatabase_PerformMaintenance (Database_ref this) type) ;;
  check ok error.

(** ** Database.hh: expiration and purge by id *)

(** [time_t exp = ...; check(exp >= 0, error); return exp;]. *)
Definition Database_getDocumentExpiration (this : Database) (docID : slice)
  : M S Z :=
  '(exp, error) <- native_step
       (CBLDatabase_GetDocumentExpiration (Database_ref this) docID) ;;
  check (0 <=? exp) error ;;
  ret exp.

Definition Database_setDocumentExpiration (this : Database) (docID : slice)
    (expiration : Z) : M S unit :=
  '(ok, error) <- native_step
       (CBLDatabase_SetDocumentExpiration (Database_ref this) docID expiration) ;;
  check ok error.

Definition Database_purgeDocumentByID (this : Database) (docID : slice)
  : M S unit :=
  '(ok, error) <- native_step
       (CBLDatabase_PurgeDocumentByID (Database_ref this) docID) ;;
  check ok error.

(** ** Database.hh: indexes *)

Definition Database_createIndex (this : Database) (name : slice)
    (spec : CBLIndexSpec) : M S unit :=
  '(ok, error) <- native_step
       (CBLDatabase_CreateIndex (Database_ref this) name spec) ;;
  check ok error.

Definition Database_deleteIndex (this : Database) (name : slice) : M S unit :=
  '(ok, error) <- native_step
       (CBLDatabase_DeleteIndex (Database_ref this) name) ;;
  check ok error.

(** ** Document.hh: MutableDocument::setPropertiesAsJSON *)

(** [if (!CBLDocument_SetJSON(ref(), json, &error)) throw error;]. *)
Definition MutableDocument_setPropertiesAsJSON (this : MutableDocument)
    (json : slice) : M S unit :=
  '(ok, error) <- native_step
       (CBLDocument_SetJSON (MutableDocument_ref this) json) ;;
  if negb ok then throw error else ret tt.

(** ** Database.hh: notifications *)

(** [std::function<void(Database)>], run on the calling thread. *)
Definition NotificationsReadyCallback : Type :=
  Database -> S -> Outcome unit * S.

(** The world together with the objects that
    [new NotificationsReadyCallback(callback)] has made, by address.
    Nothing in the wrapper deletes one (the source: "This is leaked"). *)
Record NotifyWorld := mkNotifyWorld {
  world : World S;
  ready : list NotificationsReadyCallback
}.

(** [void bufferNotifications(NotificationsReadyCallback callback)]. *)
Definition Database_bufferNotifications (this : Database)
    (callback : NotificationsReadyCallback) (nw : NotifyWorld)
  : Outcome unit * NotifyWorld :=
  let callbackPtr := length (ready nw) in
  let s' := CBLDatabase_BufferNotifications (Database_ref this) callbackPtr
              (native (world nw)) in
  (Returned tt,
   mkNotifyWorld (mkWorld s' (mem (world nw)) (trace (world nw)))
                 (ready nw ++ [callback])).

(** The lambda registered by [bufferNotifications]: the context is cast
    back to [NotificationsReadyCallback* ] and called on [Database(db)]. *)
Definition notificationsReady (context : nat) (db : pointer) (nw : NotifyWorld)
  : Outcome unit * NotifyWorld :=
  match nth_error (ready nw) context with
  | Some callback =>
      let (o, s') := callback (mkDatabase db) (native (world nw)) in
      (o, mkNotifyWorld (mkWorld s' (mem (world nw)) (trace (world nw)))
                        (ready nw))
  | None => (Undefined, nw)
  end.

Definition Database_sendNotifications (this : Database) : M S unit :=
  native_step (fun s => (tt, CBLDatabase_SendNotifications (Database_ref this) s)).

(** [bufferNotifications] called once per callback of a list, in order. *)
Fixpoint buffer_each (this : Database)
    (callbacks : list NotificationsReadyCallback) (nw : NotifyWorld)
  : NotifyWorld :=
  match callbacks with
  | [] => nw
  | callback :: rest =>
      buffer_each this rest (snd (Database_bufferNotifications this callback nw))
  end.

(** ** What the statements below observe *)

(** What a call guarded by [check] comes to, given the engine's answer:
    it returns when the flag is set and throws the engine's error when it
    is not, whatever the error's code. *)
Definition checked_outcome (r : bool * CBLError * S) : Outcome unit :=
  if fst (fst r) then Returned tt else Thrown (ExnCBL (snd (fst r))).

(** The begin-batch and end-batch calls of a trace, most recent first. *)
Definition is_batch_event (e : Event) : bool :=
  match e with
  | EvBeginBatch _ => true
  | EvEndBatch _ => true
  | _ => false
  end.

Definition batch_events (w : World S) : list Event :=
  filter is_batch_event (trace w).

End WrapperFiles.

(** The in-memory engine's side of the second interface. *)
Module ToyFiles.

Import Toy.

Definition flag_op (s : State) : bool * CBLError * State :=
  match fault s with
  | Some e => (false, e, clear_fault s)
  | None => (true, no_error, s)
  end.

Definition database_exists (name inDirectory : slice) (s : State)
  : bool * State :=
  (existsb (String.eqb name) (files s), s).

Definition open (name : slice) (config : option slice) (s : State)
  : pointer * CBLError * State :=
  match fault s with
  | Some e => (None, e, clear_fault s)
  | None =>
      if existsb (String.eqb name) (files s)
      then (Some 0%N, no_error, s)
      else (None, not_found, s)
  end.

(** Deleting the open database fails without an error code when its
    file is already gone. *)
Definition delete_open (db : pointer) (s : State) : bool * CBLError * State :=
  match fault s with
  | Some e => (false, e, clear_fault s)
  | None =>
      match files s with
      | [] => (false, no_error, s)
      | _ :: _ =>
          (true, no_error,
           mkState (store s) (instances s) (batches s) [] (registered s) None)
      end
  end.

(** No document of the engine expires: 0 for a document, -1 and an error
    for an id that is not there. *)
Definition get_expiration (db : pointer) (docID : slice) (s : State)
  : Z * CBLError * State :=
  match fault s with
  | Some e => (-1, e, clear_fault s)
  | None =>
      match lookup docID (store s) with
      | Some _ => (0, no_error, s)
      | None => (-1, not_found, s)
      end
  end.

Definition purge_by_id (db : pointer) (docID : slice) (s : State)
  : bool * CBLError * State :=
  match fault s with
  | Some e => (false, e, clear_fault s)
  | None =>
      match lookup docID (store s) with
      | Some _ => (true, no_error, erase docID s)
      | None => (false, not_found, s)
      end
  end.

#[export] Instance engine_files : CBLNativeFiles State := {
  CBLDatabaseConfiguration := slice;
  CBLMaintenanceType := nat;
  CBLIndexSpec := slice;
  CBL_DatabaseExists := database_exists;
  CBL_CopyDatabase := fun _ _ _ => flag_op;
  CBLDatabase_Open := open;
  CBLDatabase_Close := fun _ => flag_op;
  CBLDatabase_Delete := delete_open;
  CBLDatabase_PerformMaintenance := fun _ _ => flag_op;
  CBLDatabase_GetDocumentExpiration := get_expiration;
  CBLDatabase_SetDocumentExpiration := fun _ _ _ => flag_op;
  CBLDatabase_PurgeDocumentByID := purge_by_id;
  CBLDatabase_CreateIndex := fun _ _ _ => flag_op;
  CBLDatabase_DeleteIndex := fun _ _ => flag_op;
  CBLDocument_SetJSON := fun _ _ => flag_op;
  CBLDatabase_BufferNotifications := fun _ _ s => s;
  CBLDatabase_SendNotifications := fun _ s => s
}.

(** The database file is gone and nothing else is wrong. *)
Definition no_file : State := mkState [] [] 0 [] [] None.

End ToyFiles.

(** * Document properties and the life of a listener token *)

(** A [fleece::Dict] as a value: keys with their encoded values. *)
Definition Dict := list (slice * slice).

(** The native functions behind [properties()] and [setProperties]. *)
Class CBLNativeProperties (S : Type) := {
  CBLDocument_Properties : pointer -> S -> Dict * S;
  CBLDocument_SetProperties : pointer -> Dict -> S -> S
}.

(** The native deregistration of a listener. *)
Class CBLNativeListeners (S : Type) := {
  CBLListener_Remove : pointer -> S -> S
}.

Section WrapperProperties.
Context {S : Type} `{CBLNativeProperties S} `{CBLNativeListeners S}.

(** [fleece::Dict properties() const {return CBLDocument_Properties(ref());}]. *)
Definition Document_properties (this : Document) : M S Dict :=
  native_step (CBLDocument_Properties (Document_ref this)).

(** [void setProperties(fleece::MutableDict properties)]; the overload on
    a [fleece::Dict] passes [properties.mutableCopy()], the same value. *)
Definition MutableDocument_setProperties (this : MutableDocument)
    (properties : Dict) : M S unit :=
  native_step
    (fun s => (tt, CBLDocument_SetProperties (MutableDocument_ref this)
                     properties s)).

(** The end of a callable object's life. *)
Definition destroy (a : nat) : M S unit :=
  fun w => (Returned tt, mkWorld (native w) (destroyed a (mem w)) (trace w)).

(** Modelled from the spec: the destructor of [ListenerToken] of Base.hh,
    which is not among the sources.  Destroying the token deregisters it,
    and deregisters before the token's backing memory, the callback the
    context addresses, is freed. *)
Definition ListenerToken_destructor (this : ListenerToken) : M S unit :=
  bind (native_step
          (fun s => (tt, CBLListener_Remove (ListenerToken_token this) s)))
       (fun _ => destroy (ListenerToken_context this)).

End WrapperProperties.

(** The in-memory engine with a property tree for each document object. *)
Module ToyDocs.

(** The property trees, by the address of the document object; the most
    recent entry for an address is the object's tree, and an object
    without an entry has the empty tree. *)
Definition Trees := list (CBLRefCounted * Dict).
Definition State := (Toy.State * Trees)%type.

Fixpoint tree_of (a : CBLRefCounted) (p : Trees) : Dict :=
  match p with
  | [] => []
  | (a', d) :: p' => if N.eqb a' a then d else tree_of a p'
  end.

(** A function of the engine that does not look at the trees. *)
Definition lift {A} (f : Toy.State -> A * Toy.State) (s : State) : A * State :=
  let (a, t) := f (fst s) in (a, (t, snd s)).

Fixpoint lift_run (r : SaveRun Toy.State) (p : Trees) : SaveRun State :=
  match r with
  | SaveReturns ok error t => SaveReturns ok error (t, p)
  | SaveCallsHandler t myDoc otherDoc k =>
      SaveCallsHandler (t, p) myDoc otherDoc
        (fun b s => lift_run (k b (fst s)) (snd s))
  end.

(** Modelled from the spec: [CBLDocument_MutableCopy] of the C API, whose
    code is not among the sources.  The mutable copy of an existing
    document is a new document object, which starts with a copy of the
    original's property tree and shares no mutable state with it; of a
    pointer that is no document there is no copy. *)
Definition mutable_copy (doc : pointer) (s : State) : pointer * State :=
  match doc, Toy.mutable_copy doc (fst s) with
  | Some a, (Some a', t) => (Some a', (t, (a', tree_of a (snd s)) :: snd s))
  | _, (p, t) => (p, (t, snd s))
  end.

(** Modelled from the spec: [CBLDocument_Properties] of the C API, whose
    code is not among the sources.  Property access reads from the
    resource's live property tree. *)
Definition properties (doc : pointer) (s : State) : Dict * State :=
  (match doc with Some a => tree_of a (snd s) | None => [] end, s).

(** Modelled from the spec: [CBLDocument_SetProperties] of the C API,
    whose code is not among the sources.  A mutation writes to the
    in-memory tree of the document object it is made on, which the store
    sees on save only. *)
Definition set_properties (doc : pointer) (d : Dict) (s : State) : State :=
  match doc with
  | Some a => (fst s, (a, d) :: snd s)
  | None => s
  end.

#[export] Instance engine : CBLNative State := {
  CBLDomain := 1;
  CBLErrorConflict := 8;
  CBL_DeleteDatabase := fun name dir => lift (Toy.delete_database name dir);
  CBLDatabase_GetDocument := fun db id => lift (Toy.get_document db id);
  CBLDatabase_GetMutableDocument := fun db id => lift (Toy.get_document db id);
  CBLDatabase_SaveDocumentWithConcurrencyControl :=
    fun db doc c => lift (Toy.save db doc c);
  CBLDatabase_SaveDocumentWithConflictHandler :=
    fun db doc s => lift_run (Toy.save_with_handler db doc (fst s)) (snd s);
  CBLDatabase_DeleteDocumentWithConcurrencyControl :=
    fun db doc c => lift (Toy.delete_document db doc c);
  CBLDatabase_PurgeDocument := fun db doc => lift (Toy.purge_document db doc);
  CBLDocument_MutableCopy := mutable_copy;
  CBLDatabase_BeginBatch := fun db => lift (Toy.begin_batch db);
  CBLDatabase_EndBatch := fun db => lift (Toy.end_batch db);
  CBLDatabase_AddChangeListener :=
    fun db context => lift (Toy.add_listener db context);
  CBLDatabase_AddDocumentChangeListener :=
    fun db _ context => lift (Toy.add_listener db context)
}.

#[export] Instance engine_properties : CBLNativeProperties State := {
  CBLDocument_Properties := properties;
  CBLDocument_SetProperties := set_properties
}.

(** The state [Toy.s0] where the object at address 0 has one property. *)
Definition s0 : State := (Toy.s0, [(0%N, [("x", "1")])]).

End ToyDocs.

(** * Properties of the wrapper, for any engine *)
Section Properties.
Context {S : Type} `{CBLNative S}.

(** ** Running the monad *)

(** Closes the cases of an outcome analysis: each side of the statement
    is either an impossible equation or follows by congruence. *)
Ltac settle :=
  repeat split; intros;
  repeat match goal with
         | X : exists _, _ |- _ => destruct X
         | X : _ /\ _ |- _ => destruct X
         end;
  try discriminate; try congruence; try contradiction; eauto.

Lemma native_call_eq {A} (ev : Event) (f : S -> A * S) (w : World S) a s' :
  f (native w) = (a, s') ->
  native_call ev f w = (Returned a, mkWorld s' (mem w) (ev :: trace w)).
Proof. intros E. unfold native_call. now rewrite E. Qed.

Lemma bind_native_call {A B} (ev : Event) (f : S -> A * S)
    (k : A -> M S B) (w : World S) a s' :
  f (native w) = (a, s') ->
  bind (native_call ev f) k w = k a (mkWorld s' (mem w) (ev :: trace w)).
Proof. intros E. unfold bind. now rewrite (native_call_eq ev f w a s' E). Qed.

Lemma conflict_error_decide (error : CBLError) :
  (code error =? CBLErrorConflict) && (domain error =? CBLDomain) = true
  <-> conflict_error error.
Proof.
  unfold conflict_error.
  rewrite andb_true_iff, !Z.eqb_eq. tauto.
Qed.

(** ** checkSave *)

Lemma Document_checkSave_world (ok : bool) (error : CBLError) (w : World S) :
  snd (Document_checkSave ok error w) = w.
Proof.
  unfold Document_checkSave.
  destruct ok; [reflexivity|].
  destruct ((code error =? CBLErrorConflict) && (domain error =? CBLDomain));
    reflexivity.
Qed.

Lemma Document_checkSave_contract (ok : bool) (error : CBLError) (w : World S) :
  save_contract ok error (fst (Document_checkSave ok error w)).
Proof.
  unfold save_contract, Document_checkSave.
  destruct ok; cbn.
  - intuition (try discriminate; try congruence).
  - destruct ((code error =? CBLErrorConflict) && (domain error =? CBLDomain))
      eqn:C; cbn.
    + apply conflict_error_decide in C.
      intuition (try discriminate; try congruence).
    + assert (N : ~ conflict_error error).
      { intros P. apply conflict_error_decide in P. congruence. }
      intuition (try discriminate; try congruence).
Qed.

(** C1. A save in concurrency-control mode returns true when the native
    save succeeds, returns false (no error raised) exactly when the native
    save fails with the conflict error (code [CBLErrorConflict] in domain
    [CBLDomain]), and throws the native error on any other failure. *)
Theorem saveDocument_cc_contract (this : Database) (doc : MutableDocument)
    (c : CBLConcurrencyControl) (w : World S) ok error s' :
  CBLDatabase_SaveDocumentWithConcurrencyControl
    (Database_ref this) (MutableDocument_ref doc) c (native w) = (ok, error, s') ->
  save_contract ok error (fst (Database_saveDocument_cc this doc c w)).
Proof.
  intros E. unfold Database_saveDocument_cc.
  rewrite (bind_native_call _ _ _ w (ok, error) s' E).
  apply Document_checkSave_contract.
Qed.

(** ** The conflict-handler overload *)

Lemma nth_error_constructed {A} (m : list A) (c : A) :
  nth_error (m ++ [c]) (length m) = Some c.
Proof.
  induction m as [|x m IH]; [reflexivity | exact IH].
Qed.

Lemma destroyed_constructed (m : list (option (Callable S))) c :
  destroyed (length m) (m ++ [c]) = m ++ [None].
Proof.
  induction m as [|x m IH]; cbn; [reflexivity | now rewrite IH].
Qed.

(** While the resolver object is alive at [context], the trampoline is
    the resolver applied to the two wrapped documents. *)
Lemma cHandler_calls_resolver (h : SaveConflictHandler S) (context : nat)
    (myDoc otherDoc : pointer) (w : World S) :
  nth_error (mem w) context = Some (Some (HeldResolver h)) ->
  cHandler context myDoc otherDoc w =
    (fst (h (mkMutableDocument myDoc) (mkDocument otherDoc) (native w)),
     mkWorld (snd (h (mkMutableDocument myDoc) (mkDocument otherDoc) (native w)))
             (mem w)
             (EvResolver (mkMutableDocument myDoc) (mkDocument otherDoc) :: trace w)).
Proof.
  intros L. unfold cHandler. rewrite L.
  now destruct (h _ _ _).
Qed.

(** A dead or foreign context is a wild pointer. *)
Lemma cHandler_dangling (context : nat) (myDoc otherDoc : pointer) (w : World S) :
  nth_error (mem w) context = Some None ->
  fst (cHandler context myDoc otherDoc w) = Undefined.
Proof. intros L. unfold cHandler. now rewrite L. Qed.

(** The engine's whole run, callbacks included, leaves the C++ memory as
    it was and is the run answered by the resolver itself. *)
Lemma run_native_save_answered (h : SaveConflictHandler S) (context : nat)
    (r : SaveRun S) :
  forall w : World S,
    nth_error (mem w) context = Some (Some (HeldResolver h)) ->
    run_native_save cHandler context r w =
      (let '(o, s', t) := answered_by h r (trace w) in
       (o, mkWorld s' (mem w) t)).
Proof.
  induction r as [ok error s | s myDoc otherDoc k IH]; intros w L.
  - reflexivity.
  - cbn [run_native_save answered_by].
    rewrite (cHandler_calls_resolver h); [|exact L].
    cbn [native mem trace].
    destruct (h (mkMutableDocument myDoc) (mkDocument otherDoc) s) as [[b|e|] s1];
      cbn [fst snd]; try reflexivity.
    rewrite IH; [reflexivity | exact L].
Qed.

(** C2. A save in conflict-handler mode: the resolver object is
    constructed at the next free address, that address is the context the
    engine receives (the [EvSaveWithHandler] event), the object is alive
    at every callback, so that the engine's run is the run answered by the
    resolver applied to [MutableDocument(myDoc)] and [Document(otherDoc)],
    and it is destroyed only once the call is over; the flag and error the
    engine returns go through [checkSave], hence through the contract of
    the concurrency-control overload. *)
Theorem saveDocument_handler_contract (this : Database) (doc : MutableDocument)
    (h : SaveConflictHandler S) (w : World S) :
  let context := length (mem w) in
  let started :=
    EvSaveWithHandler (Database_ref this) (MutableDocument_ref doc) context
      :: trace w in
  let '(o, s', t) :=
    answered_by h
      (CBLDatabase_SaveDocumentWithConflictHandler
         (Database_ref this) (MutableDocument_ref doc) (native w)) started in
  Database_saveDocument_handler this doc h w =
    (match o with
     | Returned (ok, error) => fst (Document_checkSave ok error w)
     | Thrown e => Thrown e
     | Undefined => Undefined
     end,
     mkWorld s' (mem w ++ [None]) t)
  /\ (forall ok error, o = Returned (ok, error) ->
        save_contract ok error (fst (Database_saveDocument_handler this doc h w))).
Proof.
  cbv zeta.
  destruct (answered_by h _ _) as [[o s'] t] eqn:A.
  assert (R : Database_saveDocument_handler this doc h w =
    (match o with
     | Returned (ok, error) => fst (Document_checkSave ok error w)
     | Thrown e => Thrown e
     | Undefined => Undefined
     end, mkWorld s' (mem w ++ [None]) t)).
  { unfold Database_saveDocument_handler, with_local, construct, bind.
    cbn [native mem trace].
    rewrite (run_native_save_answered h);
      [|cbn [mem]; apply nth_error_constructed].
    cbn [native mem trace]. rewrite A.
    destruct o as [[ok error]|e|]; cbn [mem native trace].
    - unfold Document_checkSave.
      destruct ok; [|destruct (_ && _)]; cbn;
        now rewrite destroyed_constructed.
    - now rewrite destroyed_constructed.
    - now rewrite destroyed_constructed. }
  split; [exact R|].
  intros ok error ->. rewrite R. cbn [fst].
  apply Document_checkSave_contract.
Qed.

(** ** adopt *)

Lemma Document_adopt_live (r : CBLRefCounted) (error : option CBLError)
    (w : World S) :
  Document_adopt (Some r) error w = (Returned (mkDocument (Some r)), w).
Proof. reflexivity. Qed.

Lemma Document_adopt_null (e : CBLError) (w : World S) :
  Document_adopt None (Some e) w =
    (if code e =? 0 then Returned (mkDocument None) else Thrown (ExnCBL e), w).
Proof.
  unfold Document_adopt, bind, deref, ret, throw.
  now destruct (code e =? 0).
Qed.

Lemma MutableDocument_adopt_live (r : CBLRefCounted) (error : option CBLError)
    (w : World S) :
  MutableDocument_adopt (Some r) error w =
    (Returned (mkMutableDocument (Some r)), w).
Proof. reflexivity. Qed.

(** With a null document and a null error pointer, [error->code] is a
    null dereference. *)
Lemma MutableDocument_adopt_null_null (w : World S) :
  MutableDocument_adopt None None w = (Undefined, w).
Proof. reflexivity. Qed.

(** C3. [getDocument(id)] returns the empty Document, holding no native
    reference, when the engine returns no document and error code 0 (no
    document has that id); it throws exactly when the engine returns no
    document together with a non-zero error code, and what it throws is
    the engine's error; a document the engine returns is wrapped. *)
Theorem getDocument_absent_or_error (this : Database) (id : slice)
    (w : World S) d error s' :
  CBLDatabase_GetDocument (Database_ref this) id (native w) = (d, error, s') ->
  let o := fst (Database_getDocument this id w) in
  (d = None -> code error = 0 -> o = Returned (mkDocument None)) /\
  ((exists e, o = Thrown e) <-> d = None /\ code error <> 0) /\
  (d = None -> code error <> 0 -> o = Thrown (ExnCBL error)) /\
  (forall r, d = Some r -> o = Returned (mkDocument (Some r))).
Proof.
  intros E o. subst o. unfold Database_getDocument.
  rewrite (bind_native_call _ _ _ w (d, error) s' E).
  destruct d as [r|].
  - rewrite Document_adopt_live. cbn [fst]. settle.
  - rewrite Document_adopt_null. cbn [fst].
    destruct (Z.eqb_spec (code error) 0) as [Z0|NZ]; settle.
Qed.

(** ** delete and purge *)

Lemma check_outcome (ok : bool) (error : CBLError) (w : World S) :
  check ok error w =
    (if ok then Returned tt else Thrown (ExnCBL error), w).
Proof. now destruct ok. Qed.

(** C6. [deleteDocument(doc, cc)] translates the native flag and error by
    the decision tree of save ([checkSave]): true on success, false
    exactly on the conflict error, the error thrown otherwise.
    [purgeDocument(doc)] has no false result: it returns on success and
    throws the native error on every failure, a conflict error included. *)
Theorem deleteDocument_purgeDocument_contract (this : Database) (doc : Document)
    (cc : CBLConcurrencyControl) (w : World S) ok error s1 ok' error' s2 :
  CBLDatabase_DeleteDocumentWithConcurrencyControl
    (Database_ref this) (Document_ref doc) cc (native w) = (ok, error, s1) ->
  CBLDatabase_PurgeDocument
    (Database_ref this) (Document_ref doc) (native w) = (ok', error', s2) ->
  (fst (Database_deleteDocument this doc cc w)
     = fst (Document_checkSave ok error w)
   /\ save_contract ok error (fst (Database_deleteDocument this doc cc w)))
  /\ (ok' = true -> fst (Database_purgeDocument this doc w) = Returned tt)
  /\ (ok' = false ->
        fst (Database_purgeDocument this doc w) = Thrown (ExnCBL error')).
Proof.
  intros D P.
  assert (X : fst (Database_deleteDocument this doc cc w)
              = fst (Document_checkSave ok error w)).
  { unfold Database_deleteDocument.
    rewrite (bind_native_call _ _ _ w (ok, error) s1 D).
    unfold Document_checkSave.
    destruct ok; [reflexivity|]. now destruct (_ && _). }
  split; [split; [exact X|]|].
  - rewrite X. apply Document_checkSave_contract.
  - unfold Database_purgeDocument.
    rewrite (bind_native_call _ _ _ w (ok', error') s2 P).
    rewrite check_outcome. cbn [fst].
    split; intros ->; reflexivity.
Qed.

(** ** mutableCopy *)

(** With a non-null native copy, [!d] is false and [adopt] returns before
    [error->code] is evaluated: the null error pointer is never read and
    the copy is wrapped as it is. *)
Lemma mutableCopy_wraps_native_copy (this : Document) (w : World S) r r' s' :
  Document_ref this = Some r ->
  CBLDocument_MutableCopy (Some r) (native w) = (Some r', s') ->
  Document_mutableCopy this w =
    (Returned (mkMutableDocument (Some r')),
     mkWorld s' (mem w) (EvMutableCopy (Some r) :: trace w)).
Proof.
  intros L C.
  unfold Document_mutableCopy. rewrite L.
  rewrite (bind_native_call _ _ _ w (Some r') s' C).
  apply MutableDocument_adopt_live.
Qed.

(** ** deleteDatabase *)

(** C10. The static [deleteDatabase(name, inDirectory)] throws only when
    the native delete fails with a non-zero error code, and then throws
    the native error; when the native delete fails with error code 0 (no
    such database) or succeeds, it returns normally. *)
Theorem deleteDatabase_throws_only_on_error_code (name inDirectory : slice)
    (w : World S) ok error s' :
  CBL_DeleteDatabase name inDirectory (native w) = (ok, error, s') ->
  let o := fst (Database_deleteDatabase name inDirectory w) in
  ((exists e, o = Thrown e) <-> ok = false /\ code error <> 0) /\
  (ok = false -> code error <> 0 -> o = Thrown (ExnCBL error)) /\
  (ok = false -> code error = 0 -> o = Returned tt) /\
  (ok = true -> o = Returned tt).
Proof.
  intros E o. subst o. unfold Database_deleteDatabase.
  rewrite (bind_native_call _ _ _ w (ok, error) s' E).
  destruct ok; cbn [negb andb].
  - cbn. settle.
  - destruct (Z.eqb_spec (code error) 0) as [Z0|NZ]; cbn; settle.
Qed.

(** ** Batch *)

Lemma Batch_end_clears (rt : CxxRuntime) (this : Batch) (w : World S) :
  snd (fst (Batch_end rt this w)) = ended.
Proof.
  unfold Batch_end. now destruct (Batch_end_body rt (_db this) w).
Qed.

Lemma Batch_end_of_ended (rt : CxxRuntime) (w : World S) :
  Batch_end rt ended w = (Returned tt, ended, w).
Proof. reflexivity. Qed.

Lemma Batch_call_is_end (c : EndCall) : Batch_call (S := S) c = Batch_end.
Proof. now destruct c. Qed.

Lemma Batch_history_of_ended (calls : list (EndCall * CxxRuntime)) (w : World S) :
  Batch_history calls ended w = (repeat (Returned tt) (length calls), ended, w).
Proof.
  induction calls as [|[c rt] rest IH]; [reflexivity|].
  cbn [Batch_history length repeat].
  rewrite Batch_call_is_end, Batch_end_of_ended, IH. reflexivity.
Qed.

(** What [end()] does on a batch that still holds its database, by the
    engine's answer and the active handler. *)
Lemma Batch_end_success (rt : CxxRuntime) (this : Batch) (w : World S) r error s' :
  Database_ref (_db this) = Some r ->
  CBLDatabase_EndBatch (Some r) (native w) = (true, error, s') ->
  Batch_end rt this w =
    (Returned tt, ended, mkWorld s' (mem w) (EvEndBatch (Some r) :: trace w)).
Proof.
  intros L E. unfold Batch_end, Batch_end_body, Database_valid.
  rewrite L. now rewrite (bind_native_call _ _ _ w (true, error) s' E).
Qed.

Lemma Batch_end_failure_handler_active (rt : CxxRuntime) (this : Batch)
    (w : World S) r error s' x :
  Database_ref (_db this) = Some r ->
  CBLDatabase_EndBatch (Some r) (native w) = (false, error, s') ->
  current_exception rt = Some x ->
  Batch_end rt this w =
    (Returned tt, ended,
     mkWorld s' (mem w)
       (EvLogWarning "Batch::end failed, while handling an exception"
          :: EvEndBatch (Some r) :: trace w)).
Proof.
  intros L E X. unfold Batch_end, Batch_end_body, Database_valid.
  rewrite L, (bind_native_call _ _ _ w (false, error) s' E).
  cbn [negb]. now rewrite X.
Qed.

Lemma Batch_end_failure_no_handler (rt : CxxRuntime) (this : Batch)
    (w : World S) r error s' :
  Database_ref (_db this) = Some r ->
  CBLDatabase_EndBatch (Some r) (native w) = (false, error, s') ->
  current_exception rt = None ->
  Batch_end rt this w =
    (Thrown (ExnCBL error), ended,
     mkWorld s' (mem w) (EvEndBatch (Some r) :: trace w)).
Proof.
  intros L E X. unfold Batch_end, Batch_end_body, Database_valid.
  rewrite L, (bind_native_call _ _ _ w (false, error) s' E).
  cbn [negb]. now rewrite X.
Qed.

Lemma Batch_end_runs (rt : CxxRuntime) (this : Batch) (w : World S) :
  (end_batch_runs (snd (Batch_end rt this w)) <= end_batch_runs w + 1)%nat.
Proof.
  destruct (Database_ref (_db this)) as [r|] eqn:L.
  - destruct (CBLDatabase_EndBatch (Some r) (native w)) as [[ok error] s'] eqn:E.
    destruct ok.
    + rewrite (Batch_end_success rt this w r error s' L E).
      unfold end_batch_runs. cbn. lia.
    + destruct (current_exception rt) as [x|] eqn:X.
      * rewrite (Batch_end_failure_handler_active rt this w r error s' x L E X).
        unfold end_batch_runs. cbn. lia.
      * rewrite (Batch_end_failure_no_handler rt this w r error s' L E X).
        unfold end_batch_runs. cbn. lia.
  - unfold Batch_end, Batch_end_body, Database_valid. rewrite L. cbn. lia.
Qed.

Lemma Batch_history_cons (c : EndCall) (rt : CxxRuntime)
    (rest : list (EndCall * CxxRuntime)) (this : Batch) (w : World S) :
  Batch_history ((c, rt) :: rest) this w =
    (fst (fst (Batch_end rt this w)) :: repeat (Returned tt) (length rest),
     ended, snd (Batch_end rt this w)).
Proof.
  cbn [Batch_history]. rewrite Batch_call_is_end.
  pose proof (Batch_end_clears rt this w) as C.
  destruct (Batch_end rt this w) as [[o this1] w1]. cbn [fst snd] in *.
  subst this1. now rewrite Batch_history_of_ended.
Qed.

(** C4. Whatever the history of a Batch object (any number of [end()]
    calls, explicit or by the destructor, under any exception state), the
    engine's end-batch runs at most once: the first call leaves [_db]
    cleared, and every later call returns without touching anything. *)
Theorem Batch_end_at_most_once (calls : list (EndCall * CxxRuntime))
    (this : Batch) (w : World S) :
  let '(os, this', w') := Batch_history calls this w in
  (end_batch_runs w' <= end_batch_runs w + 1)%nat /\
  (forall c rt rest, calls = (c, rt) :: rest ->
     let '(o, this1, w1) := Batch_call c rt this w in
     _db this1 = mkDatabase None /\
     Batch_history rest this1 w1
       = (repeat (Returned tt) (length rest), this1, w1) /\
     os = o :: repeat (Returned tt) (length rest) /\
     w' = w1).
Proof.
  destruct calls as [|[c rt] rest].
  - cbn. split; [lia | discriminate].
  - rewrite Batch_history_cons.
    split; [apply Batch_end_runs|].
    intros c0 rt0 rest0 Q. injection Q as <- <- <-.
    rewrite Batch_call_is_end.
    pose proof (Batch_end_clears rt this w) as C.
    destruct (Batch_end rt this w) as [[o this1] w1]. cbn [fst snd] in *.
    subst this1. rewrite Batch_history_of_ended.
    repeat split.
Qed.

(** ** The default concurrency control *)

(** C7 (amended). The two entry points that let the caller leave the
    policy out do not agree: the declaration's default argument sends
    failOnConflict to the engine, the one-argument overload sends
    lastWriteWins. *)
Theorem saveDocument_default_policies (this : Database) (doc : MutableDocument)
    (w : World S) :
  save_policies (trace (snd (Database_saveDocument_decl this doc None w)))
    = kCBLConcurrencyControlFailOnConflict :: save_policies (trace w)
  /\ save_policies (trace (snd (Database_saveDocument_doc this doc w)))
    = kCBLConcurrencyControlLastWriteWins :: save_policies (trace w).
Proof.
  assert (P : forall c,
    save_policies (trace (snd (Database_saveDocument_cc this doc c w)))
      = c :: save_policies (trace w)).
  { intros c. unfold Database_saveDocument_cc.
    destruct (CBLDatabase_SaveDocumentWithConcurrencyControl
                (Database_ref this) (MutableDocument_ref doc) c (native w))
      as [[ok error] s'] eqn:E.
    rewrite (bind_native_call _ _ _ w (ok, error) s' E).
    rewrite Document_checkSave_world. reflexivity. }
  split.
  - unfold Database_saveDocument_decl. apply P.
  - unfold Database_saveDocument_doc, bind.
    specialize (P kCBLConcurrencyControlLastWriteWins).
    destruct (Database_saveDocument_cc this doc
                kCBLConcurrencyControlLastWriteWins w) as [[b|e|] w'];
      exact P.
Qed.

(** ** Listener trampolines *)

Lemma vector_of_range_in_bounds (docIDs : list FLString) (nDocs : N)
    (w : World S) :
  (N.to_nat nDocs <= length docIDs)%nat ->
  vector_of_range docIDs nDocs w = (Returned (firstn (N.to_nat nDocs) docIDs), w).
Proof.
  intros B. unfold vector_of_range.
  apply Nat.leb_le in B. now rewrite B.
Qed.

Lemma vector_of_range_whole (docIDs : list FLString) (w : World S) :
  vector_of_range docIDs (N.of_nat (length docIDs)) w = (Returned docIDs, w).
Proof.
  rewrite vector_of_range_in_bounds; rewrite Nat2N.id; [|lia].
  now rewrite firstn_all.
Qed.

Lemma nth_error_firstn_below {A} (l : list A) (n i : nat) :
  (i < n)%nat -> nth_error (firstn n l) i = nth_error l i.
Proof.
  revert n i. induction l as [|x l IH]; intros [|n] [|i] B; cbn;
    try reflexivity; try lia.
  apply IH. lia.
Qed.

(** [addListener(f)] always returns; the token's context is the address
    of an object holding [f], and that context is what the engine was
    given at registration. *)
Lemma addListener_registers_context (this : Database) (f : ListenerCallback S)
    (w : World S) :
  exists token w',
    Database_addListener this f w
      = (Returned (mkListenerToken (length (mem w)) token), w')
    /\ nth_error (mem w') (length (mem w)) = Some (Some (HeldListener f))
    /\ trace w' = EvAddChangeListener (Database_ref this) (length (mem w))
                    :: trace w.
Proof.
  unfold Database_addListener, bind, construct, native_call.
  cbn [native mem trace].
  destruct (CBLDatabase_AddChangeListener _ _ _) as [token s'].
  eexists _, _. split; [reflexivity|].
  cbn [mem trace]. split; [apply nth_error_constructed | reflexivity].
Qed.

Lemma addDocumentListener_context (this : Database) (docID : slice)
    (g : DocumentListenerCallback S) (w : World S) :
  exists token w',
    Database_addDocumentListener this docID g w
      = (Returned (mkListenerToken (length (mem w)) token), w')
    /\ nth_error (mem w') (length (mem w)) = Some (Some (HeldDocListener g)).
Proof.
  unfold Database_addDocumentListener, bind, construct, native_call.
  cbn [native mem trace].
  destruct (CBLDatabase_AddDocumentChangeListener _ _ _ _) as [token s'].
  eexists _, _. split; [reflexivity|].
  cbn [mem]. apply nth_error_constructed.
Qed.

(** C8. For every delivered change event the trampoline it goes to
    reconstructs the typed arguments exactly, each trampoline on its own
    terms.  With the listener's callback [f] alive at the context the
    engine hands back, the whole-database trampoline builds the vector of
    the [nDocs] first ids of the native array, in the array's order, and
    runs [f] on the database and that vector before it returns (the world
    it returns is the one [f] left).  With a document listener's callback
    [g] alive at its context, the document trampoline runs [g] on the
    database and the one id.  Neither needs a listener of the other kind
    to be registered. *)
Theorem trampolines_reconstruct_arguments
    (f : ListenerCallback S) (g : DocumentListenerCallback S)
    (context context' : nat) (db : pointer) (nDocs : N)
    (docIDs : list FLString) (docID : FLString) (w : World S) :
  (nth_error (mem w) context = Some (Some (HeldListener f)) ->
   (N.to_nat nDocs <= length docIDs)%nat ->
   let vec := firstn (N.to_nat nDocs) docIDs in
   (length vec = N.to_nat nDocs
    /\ (forall i, (i < N.to_nat nDocs)%nat ->
                  nth_error vec i = nth_error docIDs i))
   /\ Database__callListener context db nDocs docIDs w =
        (fst (f (mkDatabase db) vec (native w)),
         mkWorld (snd (f (mkDatabase db) vec (native w))) (mem w)
                 (EvListener (mkDatabase db) vec :: trace w)))
  /\ (nth_error (mem w) context' = Some (Some (HeldDocListener g)) ->
      Database__callDocListener context' db docID w =
        (fst (g (mkDatabase db) docID (native w)),
         mkWorld (snd (g (mkDatabase db) docID (native w))) (mem w)
                 (EvDocListener (mkDatabase db) docID :: trace w))).
Proof.
  split.
  - intros Lf B vec. repeat split.
    + subst vec. rewrite length_firstn. lia.
    + intros i Bi. subst vec. now apply nth_error_firstn_below.
    + unfold Database__callListener, bind.
      rewrite (vector_of_range_in_bounds docIDs nDocs w B).
      unfold ListenerToken_call. rewrite Lf. fold vec.
      now destruct (f (mkDatabase db) vec (native w)).
  - intros Lg.
    unfold Database__callDocListener, DocumentListenerToken_call.
    rewrite Lg. now destruct (g (mkDatabase db) docID (native w)).
Qed.

(** ** Further facts *)

(** When the engine's copy comes back null, [mutableCopy()] has handed
    [adopt] a null error pointer and [error->code] dereferences it. *)
Lemma mutableCopy_null_copy_undefined (this : Document) (w : World S) s' :
  CBLDocument_MutableCopy (Document_ref this) (native w) = (None, s') ->
  fst (Document_mutableCopy this w) = Undefined.
Proof.
  intros C. unfold Document_mutableCopy.
  now rewrite (bind_native_call _ _ _ w None s' C).
Qed.

(** The one-argument [saveDocument(doc)] drops the boolean: it returns
    both when the native save succeeded and when it failed with the
    conflict error, and throws the native error otherwise. *)
Lemma saveDocument_doc_drops_result (this : Database) (doc : MutableDocument)
    (w : World S) ok error s' :
  CBLDatabase_SaveDocumentWithConcurrencyControl
    (Database_ref this) (MutableDocument_ref doc)
    kCBLConcurrencyControlLastWriteWins (native w) = (ok, error, s') ->
  let o := fst (Database_saveDocument_doc this doc w) in
  (ok = true -> o = Returned tt) /\
  (ok = false -> conflict_error error -> o = Returned tt) /\
  (ok = false -> ~ conflict_error error -> o = Thrown (ExnCBL error)).
Proof.
  intros E o. subst o.
  unfold Database_saveDocument_doc, Database_saveDocument_cc, bind, native_call.
  rewrite E. unfold Document_checkSave.
  destruct ok; cbn.
  - settle.
  - destruct ((code error =? CBLErrorConflict) && (domain error =? CBLDomain))
      eqn:C; cbn.
    + apply conflict_error_decide in C. settle.
    + assert (N : ~ conflict_error error).
      { intros P. apply conflict_error_decide in P. congruence. }
      settle.
Qed.

(** [getMutableDocument(id)] treats the engine's answer as
    [getDocument(id)] does. *)
Lemma getMutableDocument_absent_or_error (this : Database) (id : slice)
    (w : World S) d error s' :
  CBLDatabase_GetMutableDocument (Database_ref this) id (native w)
    = (d, error, s') ->
  fst (Database_getMutableDocument this id w) =
    match d with
    | Some r => Returned (mkMutableDocument (Some r))
    | None => if code error =? 0 then Returned (mkMutableDocument None)
              else Thrown (ExnCBL error)
    end.
Proof.
  intros E. unfold Database_getMutableDocument.
  rewrite (bind_native_call _ _ _ w (d, error) s' E).
  destruct d as [r|]; [reflexivity|].
  unfold MutableDocument_adopt, bind, deref, ret, throw.
  now destruct (code error =? 0).
Qed.

(** When the engine's end-batch fails, what [end()] does is decided by
    [std::current_exception()] alone: a warning when a handler is active,
    a throw when none is, whatever the number of exceptions in flight. *)
Lemma Batch_end_failure_by_handler (rt : CxxRuntime) (this : Batch)
    (w : World S) r error s' :
  Database_ref (_db this) = Some r ->
  CBLDatabase_EndBatch (Some r) (native w) = (false, error, s') ->
  let '(o, _, w') := Batch_end rt this w in
  match current_exception rt with
  | Some _ => o = Returned tt /\ warnings w' = Datatypes.S (warnings w)
  | None => o = Thrown (ExnCBL error) /\ warnings w' = warnings w
  end.
Proof.
  intros L E.
  destruct (current_exception rt) as [x|] eqn:X.
  - rewrite (Batch_end_failure_handler_active rt this w r error s' x L E X).
    split; reflexivity.
  - rewrite (Batch_end_failure_no_handler rt this w r error s' L E X).
    split; reflexivity.
Qed.

End Properties.

(** * Concrete runs on the in-memory engine *)

#[local] Existing Instance Toy.engine.

(** C1 at a concrete input: saving the stale object of "doc1" under
    failOnConflict makes the engine fail with the conflict error, and the
    wrapper returns false. *)
Lemma saveDocument_cc_contract_witness :
  CBLDatabase_SaveDocumentWithConcurrencyControl
    (Database_ref Toy.db) (MutableDocument_ref Toy.stale_doc)
    kCBLConcurrencyControlFailOnConflict (native (Toy.world Toy.s0))
    = (false, Toy.conflict, Toy.s0)
  /\ save_contract (S := Toy.State) false Toy.conflict
       (fst (Database_saveDocument_cc Toy.db Toy.stale_doc
               kCBLConcurrencyControlFailOnConflict (Toy.world Toy.s0)))
  /\ fst (Database_saveDocument_cc Toy.db Toy.stale_doc
            kCBLConcurrencyControlFailOnConflict (Toy.world Toy.s0))
     = Returned false.
Proof.
  split; [reflexivity|]. split; [|reflexivity].
  apply (saveDocument_cc_contract Toy.db Toy.stale_doc
           kCBLConcurrencyControlFailOnConflict (Toy.world Toy.s0)
           false Toy.conflict Toy.s0).
  reflexivity.
Defined.

(** The scenario of the spec: the first save under failOnConflict
    succeeds, a second save from the copy that is now stale returns
    false. *)
Example save_twice_fail_on_conflict :
  let '(first, w1) :=
    Database_saveDocument_cc Toy.db Toy.fresh_doc
      kCBLConcurrencyControlFailOnConflict (Toy.world Toy.s0) in
  first = Returned true /\
  fst (Database_saveDocument_cc Toy.db Toy.stale_doc
         kCBLConcurrencyControlFailOnConflict w1) = Returned false.
Proof. split; reflexivity. Qed.

(** A resolver that merges makes the save succeed; one that declines
    makes it return false; both are invoked on the document being saved
    and the committed one. *)
Example save_with_resolver :
  fst (Database_saveDocument_handler Toy.db Toy.stale_doc Toy.keep_mine
         (Toy.world Toy.s0)) = Returned true
  /\ fst (Database_saveDocument_handler Toy.db Toy.stale_doc Toy.abandon
            (Toy.world Toy.s0)) = Returned false
  /\ trace (snd (Database_saveDocument_handler Toy.db Toy.stale_doc Toy.abandon
                   (Toy.world Toy.s0)))
     = [EvResolver Toy.stale_doc (mkDocument (Some 2%N));
        EvSaveWithHandler (Some 0%N) (Some 1%N) 0].
Proof. repeat split. Qed.

(** C3 at a concrete input: no document has the id "nope". *)
Lemma getDocument_absent_or_error_witness :
  CBLDatabase_GetDocument (Database_ref Toy.db) "nope" (native (Toy.world Toy.s0))
    = (None, Toy.no_error, Toy.s0)
  /\ fst (Database_getDocument Toy.db "nope" (Toy.world Toy.s0))
     = Returned (mkDocument None).
Proof.
  split; [reflexivity|].
  pose proof (getDocument_absent_or_error Toy.db "nope" (Toy.world Toy.s0)
           None Toy.no_error Toy.s0 eq_refl) as (A & _).
  exact (A eq_refl eq_refl).
Defined.

(** An I/O failure of the engine is thrown by [getDocument]. *)
Example getDocument_io_failure :
  let s := Toy.mkState [("doc1", 1)] [] 0 ["d1"] [] (Some Toy.io_error) in
  fst (Database_getDocument Toy.db "doc1" (Toy.world s))
    = Thrown (ExnCBL Toy.io_error).
Proof. reflexivity. Qed.

(** C6 at a concrete input: the engine fails both calls with a conflict
    error; delete returns false, purge throws. *)
Lemma deleteDocument_purgeDocument_contract_witness :
  let s := Toy.mkState [("doc1", 1)] [("doc1", 1)] 0 ["d1"] []
             (Some Toy.conflict) in
  let doc := mkDocument (Some 0%N) in
  fst (Database_deleteDocument Toy.db doc
         kCBLConcurrencyControlFailOnConflict (Toy.world s)) = Returned false
  /\ fst (Database_purgeDocument Toy.db doc (Toy.world s))
     = Thrown (ExnCBL Toy.conflict).
Proof.
  cbv zeta.
  pose proof (deleteDocument_purgeDocument_contract Toy.db
    (mkDocument (Some 0%N)) kCBLConcurrencyControlFailOnConflict
    (Toy.world (Toy.mkState [("doc1", 1)] [("doc1", 1)] 0 ["d1"] []
                  (Some Toy.conflict)))
    false Toy.conflict (Toy.mkState [("doc1", 1)] [("doc1", 1)] 0 ["d1"] [] None)
    false Toy.conflict (Toy.mkState [("doc1", 1)] [("doc1", 1)] 0 ["d1"] [] None)
    eq_refl eq_refl) as [[D _] [_ P]].
  split; [rewrite D; reflexivity | exact (P eq_refl)].
Defined.

#[local] Existing Instance ToyDocs.engine.
#[local] Existing Instance ToyDocs.engine_properties.

Lemma tree_of_other (a b : CBLRefCounted) (d : Dict) (p : ToyDocs.Trees) :
  b <> a -> ToyDocs.tree_of a ((b, d) :: p) = ToyDocs.tree_of a p.
Proof.
  intros N. cbn [ToyDocs.tree_of].
  destruct (N.eqb_spec b a) as [E|_]; [contradiction | reflexivity].
Qed.

Lemma tree_of_same (a : CBLRefCounted) (d : Dict) (p : ToyDocs.Trees) :
  ToyDocs.tree_of a ((a, d) :: p) = d.
Proof. cbn [ToyDocs.tree_of]. now rewrite N.eqb_refl. Qed.

(** A document object that exists lies below the next free address. *)
Lemma instance_at_below (r : CBLRefCounted) (t : Toy.State) i :
  Toy.instance_at (Some r) t = Some i ->
  N.of_nat (length (Toy.instances t)) <> r.
Proof.
  unfold Toy.instance_at. intros L E.
  assert (B : (N.to_nat r < length (Toy.instances t))%nat).
  { apply nth_error_Some. congruence. }
  subst r. rewrite Nat2N.id in B. lia.
Qed.

(** C9.  Whatever the engine, when the native mutable copy of a live
    Document is a non-null resource, [mutableCopy()] returns the
    MutableDocument that wraps it: nothing is thrown and the error
    pointer (null here) is never read.  On the engine whose copy,
    property access and mutation are modelled from the spec, the copy of
    every existing document succeeds, is a document object of its own
    that starts with the original's properties, and is independent: a
    later mutation of the copy leaves the original's properties as they
    were, and a later mutation of the original's object leaves the
    copy's. *)
Theorem mutableCopy_succeeds :
  (forall (S : Type) (E : CBLNative S) (this : Document) (w : World S) r r' s',
     Document_ref this = Some r ->
     CBLDocument_MutableCopy (Some r) (native w) = (Some r', s') ->
     Document_mutableCopy this w =
       (Returned (mkMutableDocument (Some r')),
        mkWorld s' (mem w) (EvMutableCopy (Some r) :: trace w)))
  /\ (forall (this : Document) (w : World ToyDocs.State) r i,
        Document_ref this = Some r ->
        Toy.instance_at (Some r) (fst (native w)) = Some i ->
        exists copy w1,
          Document_mutableCopy this w = (Returned copy, w1)
          /\ MutableDocument_ref copy <> Document_ref this
          /\ fst (Document_properties (MutableDocument_upcast copy) w1)
             = fst (Document_properties this w)
          /\ forall d,
               let w2 := snd (MutableDocument_setProperties copy d w1) in
               let w3 := snd (MutableDocument_setProperties
                                (mkMutableDocument (Some r)) d w1) in
               (fst (Document_properties (MutableDocument_upcast copy) w2)
                  = Returned d
                /\ fst (Document_properties this w2)
                   = fst (Document_properties this w1))
               /\ (fst (Document_properties this w3) = Returned d
                   /\ fst (Document_properties (MutableDocument_upcast copy) w3)
                      = fst (Document_properties (MutableDocument_upcast copy) w1))).
Proof.
  split.
  - intros S E this w r r' s' L C.
    exact (mutableCopy_wraps_native_copy this w r r' s' L C).
  - intros [p] [[t trees] m tr] r i L I. cbn in L, I. subst p.
    pose proof (instance_at_below r t i I) as F.
    eexists _, _. split.
    + apply (mutableCopy_wraps_native_copy (mkDocument (Some r)) _ r
               (N.of_nat (length (Toy.instances t)))
               (Toy.mkState (Toy.store t) (Toy.instances t ++ [i])
                  (Toy.batches t) (Toy.files t) (Toy.registered t)
                  (Toy.fault t),
                (N.of_nat (length (Toy.instances t)), ToyDocs.tree_of r trees)
                  :: trees));
        [reflexivity|].
      cbn. unfold ToyDocs.mutable_copy, Toy.mutable_copy, Toy.instance_at.
      cbn [fst snd]. rewrite I. reflexivity.
    + cbn [MutableDocument_ref Document_ref]. split; [congruence|].
      unfold Document_properties, MutableDocument_setProperties, native_step,
        MutableDocument_upcast.
      cbn [fst snd native mem trace MutableDocument_ref Document_ref
           CBLDocument_Properties CBLDocument_SetProperties
           ToyDocs.engine_properties ToyDocs.properties ToyDocs.set_properties].
      split; [now rewrite tree_of_same|].
      intros d. cbv zeta.
      cbn [fst snd native mem trace].
      repeat split.
      * now rewrite tree_of_same.
      * now rewrite !tree_of_other by exact F.
      * now rewrite tree_of_same.
      * rewrite tree_of_other by congruence. reflexivity.
Qed.

(** C9 at a concrete input: the object at address 0 has the property
    x = 1; its copy is the new object at address 2, and writing y = 2 to
    the copy leaves the original with x = 1. *)
Lemma mutableCopy_succeeds_witness :
  let this := mkDocument (Some 0%N) in
  let '(copy, w1) := Document_mutableCopy this (mkWorld ToyDocs.s0 [] []) in
  copy = Returned (mkMutableDocument (Some 2%N))
  /\ fst (Document_properties this
            (snd (MutableDocument_setProperties (mkMutableDocument (Some 2%N))
                    [("y", "2")] w1)))
     = Returned [("x", "1")].
Proof.
  cbv zeta.
  destruct mutableCopy_succeeds as [_ T].
  destruct (T (mkDocument (Some 0%N)) (mkWorld ToyDocs.s0 [] []) 0%N
              ("doc1", 1) eq_refl eq_refl) as (copy & w1 & E & _).
  rewrite E. vm_compute in E. injection E as <- <-.
  split; reflexivity.
Defined.

(** C10 at a concrete input: there is no database file "nope"; the
    engine fails with error code 0 and nothing is thrown. *)
Lemma deleteDatabase_throws_only_on_error_code_witness :
  CBL_DeleteDatabase "nope" "/tmp" (native (Toy.world Toy.s0))
    = (false, Toy.no_error, Toy.s0)
  /\ fst (Database_deleteDatabase "nope" "/tmp" (Toy.world Toy.s0)) = Returned tt.
Proof.
  split; [reflexivity|].
  pose proof (deleteDatabase_throws_only_on_error_code "nope" "/tmp"
           (Toy.world Toy.s0) false Toy.no_error Toy.s0 eq_refl)
    as (_ & _ & Z & _).
  exact (Z eq_refl eq_refl).
Defined.

(** With an error code the failure is thrown. *)
Example deleteDatabase_io_failure :
  let s := Toy.mkState [] [] 0 ["d1"] [] (Some Toy.io_error) in
  fst (Database_deleteDatabase "d1" "/tmp" (Toy.world s))
    = Thrown (ExnCBL Toy.io_error).
Proof. reflexivity. Qed.

(** C8 at concrete inputs: in a world where only a database listener
    is registered the engine delivers two ids out of an array of three;
    in a world where only a document listener is registered it delivers
    the id "doc1". *)
Lemma trampolines_reconstruct_arguments_witness :
  let w_db :=
    snd (Database_addListener Toy.db Toy.on_change (Toy.world Toy.s0)) in
  let w_doc :=
    snd (Database_addDocumentListener Toy.db "doc1" Toy.on_document_change
           (Toy.world Toy.s0)) in
  (mem w_db = [Some (HeldListener Toy.on_change)]
   /\ trace (snd (Database__callListener 0 (Some 0%N) 2
                    ["doc1"; "doc2"; "spare"] w_db))
      = EvListener Toy.db ["doc1"; "doc2"] :: trace w_db)
  /\ (mem w_doc = [Some (HeldDocListener Toy.on_document_change)]
      /\ trace (snd (Database__callDocListener 0 (Some 0%N) "doc1" w_doc))
         = EvDocListener Toy.db "doc1" :: trace w_doc).
Proof.
  cbv zeta. split; (split; [reflexivity|]).
  - pose proof (trampolines_reconstruct_arguments
      Toy.on_change Toy.on_document_change 0 0 (Some 0%N) 2
      ["doc1"; "doc2"; "spare"] "doc1"
      (snd (Database_addListener Toy.db Toy.on_change (Toy.world Toy.s0))))
      as [T _].
    cbv zeta in T.
    destruct (T eq_refl) as (_ & L).
    + vm_compute. lia.
    + rewrite L. reflexivity.
  - pose proof (trampolines_reconstruct_arguments
      Toy.on_change Toy.on_document_change 0 0 (Some 0%N) 2
      ["doc1"; "doc2"; "spare"] "doc1"
      (snd (Database_addDocumentListener Toy.db "doc1" Toy.on_document_change
              (Toy.world Toy.s0))))
      as [_ T].
    rewrite (T eq_refl). reflexivity.
Defined.

(** C7 refuted at a concrete input: the one-argument overload saves the
    stale object of "doc1" under lastWriteWins, which is not
    failOnConflict, and overwrites the committed revision; the
    declaration's default returns false there and leaves it. *)
Lemma saveDocument_doc_is_last_write_wins :
  save_policies
    (trace (snd (Database_saveDocument_doc Toy.db Toy.stale_doc (Toy.world Toy.s0))))
    = [kCBLConcurrencyControlLastWriteWins]
  /\ kCBLConcurrencyControlLastWriteWins <> kCBLConcurrencyControlFailOnConflict
  /\ Toy.store
       (native (snd (Database_saveDocument_doc Toy.db Toy.stale_doc
                       (Toy.world Toy.s0))))
     = [("doc1", 2)]
  /\ Database_saveDocument_decl Toy.db Toy.stale_doc None (Toy.world Toy.s0)
     = (Returned false,
        mkWorld Toy.s0 []
          [EvSave (Some 0%N) (Some 1%N) kCBLConcurrencyControlFailOnConflict]).
Proof.
  repeat split. discriminate.
Qed.

(** C5 evaluated where it fails.  An exception is in flight and the
    Batch's destructor runs during the unwinding; the engine's end-batch
    fails.  [std::current_exception()] is null there (no handler is
    active yet), so [end()] takes the throwing branch: a second exception
    leaves the destructor and no warning is logged.  Conversely, inside a
    [catch] clause with nothing in flight, the failure of an explicit
    [end()] is logged and not raised. *)
Theorem Batch_end_tests_the_handled_exception :
  (propagating Toy.unwinding = true
   /\ Batch_destructor Toy.unwinding (mkBatch Toy.db) (Toy.world Toy.failing_batch)
      = (Thrown (ExnCBL Toy.io_error), ended,
         mkWorld (Toy.clear_fault Toy.failing_batch) []
           [EvEndBatch (Some 0%N)]))
  /\ (propagating Toy.in_catch_clause = false
      /\ Batch_end Toy.in_catch_clause (mkBatch Toy.db) (Toy.world Toy.failing_batch)
         = (Returned tt, ended,
            mkWorld (Toy.clear_fault Toy.failing_batch) []
              [EvLogWarning "Batch::end failed, while handling an exception";
               EvEndBatch (Some 0%N)])).
Proof.
  repeat split.
Qed.

(** The copy of an empty Document: the engine returns null and the null
    error pointer is read. *)
Lemma mutableCopy_null_copy_undefined_witness :
  fst (Document_mutableCopy (mkDocument None) (Toy.world Toy.s0)) = Undefined.
Proof.
  apply (mutableCopy_null_copy_undefined (mkDocument None) (Toy.world Toy.s0)
           Toy.s0).
  reflexivity.
Defined.

(** The one-argument save of the stale object returns. *)
Lemma saveDocument_doc_drops_result_witness :
  fst (Database_saveDocument_doc Toy.db Toy.stale_doc (Toy.world Toy.s0))
    = Returned tt.
Proof.
  pose proof (saveDocument_doc_drops_result Toy.db Toy.stale_doc
    (Toy.world Toy.s0) true Toy.no_error
    (Toy.commit 1%N "doc1" Toy.s0) eq_refl) as (A & _).
  exact (A eq_refl).
Defined.

(** No document "nope": the empty MutableDocument. *)
Lemma getMutableDocument_absent_or_error_witness :
  fst (Database_getMutableDocument Toy.db "nope" (Toy.world Toy.s0))
    = Returned (mkMutableDocument None).
Proof.
  pose proof (getMutableDocument_absent_or_error Toy.db "nope"
    (Toy.world Toy.s0) None Toy.no_error Toy.s0 eq_refl) as G.
  exact G.
Defined.

(** The failing end-batch during unwinding: a throw and no warning. *)
Lemma Batch_end_failure_by_handler_witness :
  fst (fst (Batch_end Toy.unwinding (mkBatch Toy.db) (Toy.world Toy.failing_batch)))
    = Thrown (ExnCBL Toy.io_error).
Proof.
  pose proof (Batch_end_failure_by_handler Toy.unwinding (mkBatch Toy.db)
    (Toy.world Toy.failing_batch) 0%N Toy.io_error
    (Toy.clear_fault Toy.failing_batch) eq_refl eq_refl) as T.
  destruct (Batch_end Toy.unwinding (mkBatch Toy.db) (Toy.world Toy.failing_batch))
    as [[o b] w'].
  cbn in T. destruct T as [T _]. exact T.
Defined.

(** * Further properties, for any engine *)
Section FurtherProperties.
Context {S : Type} `{CBLNative S} `{CBLNativeFiles S}.

(** ** The resolver object of a conflict-handler save *)

(** Whatever the outcome of a conflict-handler save, the only change to
    the C++ memory is the resolver object, constructed and destroyed. *)
Lemma saveDocument_handler_mem (this : Database) (doc : MutableDocument)
    (h : SaveConflictHandler S) (w : World S) :
  mem (snd (Database_saveDocument_handler this doc h w)) = mem w ++ [None].
Proof.
  unfold Database_saveDocument_handler, with_local, construct, bind.
  cbn [native mem trace].
  rewrite (run_native_save_answered h);
    [|cbn [mem]; apply nth_error_constructed].
  cbn [native mem trace].
  destruct (answered_by h _ _) as [[o s'] t].
  destruct o as [[ok error]|e|]; cbn [mem native trace snd].
  - unfold Document_checkSave.
    destruct ok; [|destruct (_ && _)]; cbn;
      now rewrite destroyed_constructed.
  - now rewrite destroyed_constructed.
  - now rewrite destroyed_constructed.
Qed.

(** When a conflict-handler save is over, by return or by
    exception, its resolver object is gone and nothing else has changed
    in memory: the context the engine was given is valid for the call
    only, and a callback made on it afterwards goes to a dead object. *)
Theorem saveDocument_handler_context_dies (this : Database)
    (doc : MutableDocument) (h : SaveConflictHandler S) (w : World S)
    (myDoc otherDoc : pointer) :
  let w' := snd (Database_saveDocument_handler this doc h w) in
  mem w' = mem w ++ [None]
  /\ fst (cHandler (length (mem w)) myDoc otherDoc w') = Undefined.
Proof.
  cbv zeta. split; [apply saveDocument_handler_mem|].
  apply cHandler_dangling.
  rewrite saveDocument_handler_mem. apply nth_error_constructed.
Qed.

(** ** Batch *)

(** For a Batch constructed on a valid Database, as soon as [end()]
    is reached once (explicitly or by the destructor) the batch calls of
    the engine are balanced, whatever follows: one begin-batch and then
    one end-batch, on the same handle, and [_db] is cleared. *)
Theorem Batch_begin_end_balanced (db : Database) (w w1 : World S) (b : Batch)
    (c : EndCall) (rt : CxxRuntime) (rest : list (EndCall * CxxRuntime)) :
  Database_valid db = true ->
  Batch_new db w = (Returned b, w1) ->
  let '(_, b', w') := Batch_history ((c, rt) :: rest) b w1 in
  b' = ended
  /\ batch_events w'
     = EvEndBatch (Database_ref db) :: EvBeginBatch (Database_ref db)
         :: batch_events w.
Proof.
  intros V N. rewrite Batch_history_cons.
  split; [reflexivity|].
  unfold Batch_new in N.
  destruct (CBLDatabase_BeginBatch (Database_ref db) (native w))
    as [[ok error] s1] eqn:B.
  rewrite (bind_native_call _ _ _ w (ok, error) s1 B) in N.
  destruct ok; cbn in N; [|discriminate].
  injection N as <- <-.
  unfold Database_valid in V.
  destruct (Database_ref db) as [r|] eqn:R; [|discriminate].
  destruct (CBLDatabase_EndBatch (Some r) s1) as [[ok error'] s2] eqn:E.
  destruct ok.
  - rewrite (Batch_end_success rt (mkBatch db) (mkWorld s1 _ _) r error' s2
               R E).
    reflexivity.
  - destruct (current_exception rt) as [x|] eqn:X.
    + rewrite (Batch_end_failure_handler_active rt (mkBatch db)
                 (mkWorld s1 _ _) r error' s2 x R E X).
      reflexivity.
    + rewrite (Batch_end_failure_no_handler rt (mkBatch db)
                 (mkWorld s1 _ _) r error' s2 R E X).
      reflexivity.
Qed.

(** The constructor does not test the Database it is given, [end()]
    does: a Batch constructed on an empty Database begins a batch on the
    null handle, and no call of [end()], explicit or by the destructor,
    ever reaches the engine. *)
Theorem Batch_on_empty_Database_never_ends (db : Database) (w w1 : World S)
    (b : Batch) (calls : list (EndCall * CxxRuntime)) :
  Database_ref db = None ->
  Batch_new db w = (Returned b, w1) ->
  batch_events w1 = EvBeginBatch None :: batch_events w
  /\ Batch_history calls b w1
     = (repeat (Returned tt) (length calls), ended, w1).
Proof.
  intros R N. unfold Batch_new in N.
  destruct (CBLDatabase_BeginBatch (Database_ref db) (native w))
    as [[ok error] s1] eqn:B.
  rewrite (bind_native_call _ _ _ w (ok, error) s1 B) in N.
  destruct ok; cbn in N; [|discriminate].
  injection N as <- <-.
  destruct db as [p]. cbn in R. subst p.
  split; [reflexivity|].
  apply Batch_history_of_ended.
Qed.

(** ** Construction, expiration, guarded calls *)

(** A Database that a constructor returns is never empty: it holds
    the handle the engine's open returned; when the engine returns null
    the constructor throws the engine's error, whatever its code. *)
Theorem Database_new_valid (name : slice) (config : CBLDatabaseConfiguration)
    (w : World S) :
  match fst (Database_new name w) with
  | Returned db =>
      Database_valid db = true
      /\ Database_ref db = fst (fst (CBLDatabase_Open name None (native w)))
  | Thrown e =>
      fst (fst (CBLDatabase_Open name None (native w))) = None
      /\ e = ExnCBL (snd (fst (CBLDatabase_Open name None (native w))))
  | Undefined => False
  end
  /\ match fst (Database_new_config name config w) with
     | Returned db =>
         Database_valid db = true
         /\ Database_ref db
            = fst (fst (CBLDatabase_Open name (Some config) (native w)))
     | Thrown e =>
         fst (fst (CBLDatabase_Open name (Some config) (native w))) = None
         /\ e = ExnCBL
                  (snd (fst (CBLDatabase_Open name (Some config) (native w))))
     | Undefined => False
     end.
Proof.
  split.
  - unfold Database_new, bind, native_step.
    destruct (CBLDatabase_Open name None (native w)) as [[[r|] error] s'];
      cbn; split; reflexivity.
  - unfold Database_new_config, bind, native_step.
    destruct (CBLDatabase_Open name (Some config) (native w))
      as [[[r|] error] s']; cbn; split; reflexivity.
Qed.

(** [getDocumentExpiration] never returns a negative time: it
    returns what the engine gave when that is 0 or more (0 included), and
    throws the engine's error when it is negative. *)
Theorem getDocumentExpiration_never_negative (this : Database) (docID : slice)
    (w : World S) :
  let r := CBLDatabase_GetDocumentExpiration (Database_ref this) docID (native w) in
  match fst (Database_getDocumentExpiration this docID w) with
  | Returned exp => 0 <= exp /\ exp = fst (fst r)
  | Thrown e => fst (fst r) < 0 /\ e = ExnCBL (snd (fst r))
  | Undefined => False
  end.
Proof.
  cbv zeta. unfold Database_getDocumentExpiration, bind, native_step.
  destruct (CBLDatabase_GetDocumentExpiration _ _ _) as [[exp error] s'].
  cbn [fst snd].
  destruct (Z.leb_spec 0 exp); cbn; split; try reflexivity; lia.
Qed.

Lemma checked_step (f : S -> bool * CBLError * S) (w : World S) :
  fst (bind (native_step f)
            (fun x => match x with (ok, error) => check ok error end) w)
    = checked_outcome (f (native w)).
Proof.
  unfold bind, native_step, checked_outcome.
  destruct (f (native w)) as [[[|] error] s']; reflexivity.
Qed.

(** The operations guarded by [check] never report success on a
    native failure and never drop it, not even one whose error code is 0:
    each returns exactly when the engine's flag is set and otherwise
    throws the engine's error. *)
Theorem guarded_calls_raise_every_failure (this : Database)
    (doc : MutableDocument) (w : World S) :
  (forall fromPath toName,
     fst (Database_copyDatabase fromPath toName w)
       = checked_outcome (CBL_CopyDatabase fromPath toName None (native w))) /\
  (forall fromPath toName config,
     fst (Database_copyDatabase_config fromPath toName config w)
       = checked_outcome
           (CBL_CopyDatabase fromPath toName (Some config) (native w))) /\
  fst (Database_close this w)
    = checked_outcome (CBLDatabase_Close (Database_ref this) (native w)) /\
  fst (Database_deleteDatabase_member this w)
    = checked_outcome (CBLDatabase_Delete (Database_ref this) (native w)) /\
  (forall type,
     fst (Database_performMaintenance this type w)
       = checked_outcome
           (CBLDatabase_PerformMaintenance (Database_ref this) type (native w))) /\
  (forall docID expiration,
     fst (Database_setDocumentExpiration this docID expiration w)
       = checked_outcome
           (CBLDatabase_SetDocumentExpiration (Database_ref this) docID
              expiration (native w))) /\
  (forall docID,
     fst (Database_purgeDocumentByID this docID w)
       = checked_outcome
           (CBLDatabase_PurgeDocumentByID (Database_ref this) docID (native w))) /\
  (forall name spec,
     fst (Database_createIndex this name spec w)
       = checked_outcome
           (CBLDatabase_CreateIndex (Database_ref this) name spec (native w))) /\
  (forall name,
     fst (Database_deleteIndex this name w)
       = checked_outcome
           (CBLDatabase_DeleteIndex (Database_ref this) name (native w))) /\
  (forall json,
     fst (MutableDocument_setPropertiesAsJSON doc json w)
       = checked_outcome
           (CBLDocument_SetJSON (MutableDocument_ref doc) json (native w))).
Proof.
  repeat apply conj; intros; try apply checked_step.
  unfold MutableDocument_setPropertiesAsJSON, bind, native_step, checked_outcome.
  destruct (CBLDocument_SetJSON _ _ _) as [[[|] error] s']; reflexivity.
Qed.

(** The two ways of deleting a database disagree on a failure
    without an error code: the static [deleteDatabase(name, inDirectory)]
    returns as if nothing had failed, the member [deleteDatabase()]
    throws an error whose code is 0. *)
Theorem deleteDatabase_static_and_member_differ (this : Database)
    (name inDirectory : slice) (w : World S) error s1 error' s2 :
  CBL_DeleteDatabase name inDirectory (native w) = (false, error, s1) ->
  CBLDatabase_Delete (Database_ref this) (native w) = (false, error', s2) ->
  code error = 0 -> code error' = 0 ->
  fst (Database_deleteDatabase name inDirectory w) = Returned tt
  /\ fst (Database_deleteDatabase_member this w) = Thrown (ExnCBL error').
Proof.
  intros E E' Z0 Z0'. split.
  - unfold Database_deleteDatabase.
    rewrite (bind_native_call _ _ _ w (false, error) s1 E).
    rewrite Z0. reflexivity.
  - unfold Database_deleteDatabase_member. rewrite checked_step.
    rewrite E'. reflexivity.
Qed.

(** ** The range of the change vector *)

(** The whole-database trampoline trusts [nDocs]: with a count
    past the end of the native array it reads out of bounds before any
    callback runs; with a count of 0 the callback still runs, on an
    empty vector. *)
Theorem callListener_count_bounds (f : ListenerCallback S) (context : nat)
    (db : pointer) (docIDs : list FLString) (w : World S) :
  nth_error (mem w) context = Some (Some (HeldListener f)) ->
  (forall nDocs, (length docIDs < N.to_nat nDocs)%nat ->
     Database__callListener context db nDocs docIDs w = (Undefined, w))
  /\ Database__callListener context db 0 docIDs w
     = (fst (f (mkDatabase db) [] (native w)),
        mkWorld (snd (f (mkDatabase db) [] (native w))) (mem w)
                (EvListener (mkDatabase db) [] :: trace w)).
Proof.
  intros L. split.
  - intros nDocs B. unfold Database__callListener, bind, vector_of_range.
    apply Nat.leb_gt in B. now rewrite B.
  - unfold Database__callListener, bind.
    rewrite vector_of_range_in_bounds by (cbn; lia).
    change (firstn (N.to_nat 0) docIDs) with (@nil slice).
    unfold ListenerToken_call. rewrite L.
    now destruct (f (mkDatabase db) [] (native w)).
Qed.

(** ** Buffered notifications *)

(** Every call of [bufferNotifications] leaves one more callback object
    behind and none is ever freed or replaced: after a run of calls each
    of their contexts, the first as well as the last, still leads the
    registered lambda to its own callback, called on [Database(db)]. *)
Theorem bufferNotifications_leaks (this : Database)
    (callbacks : list NotificationsReadyCallback) (nw : NotifyWorld)
    (db : pointer) :
  let nw' := buffer_each this callbacks nw in
  ready nw' = ready nw ++ callbacks
  /\ mem (world nw') = mem (world nw)
  /\ forall i callback,
       nth_error callbacks i = Some callback ->
       notificationsReady (length (ready nw) + i) db nw'
         = (fst (callback (mkDatabase db) (native (world nw'))),
            mkNotifyWorld
              (mkWorld (snd (callback (mkDatabase db) (native (world nw'))))
                       (mem (world nw')) (trace (world nw')))
              (ready nw')).
Proof.
  cbv zeta.
  assert (R : forall cbs nw0,
             ready (buffer_each this cbs nw0) = ready nw0 ++ cbs
             /\ mem (world (buffer_each this cbs nw0)) = mem (world nw0)).
  { induction cbs as [|cb cbs IH]; intros nw0; cbn [buffer_each].
    - now rewrite app_nil_r.
    - destruct (IH (snd (Database_bufferNotifications this cb nw0))) as [E M'].
      rewrite E, M'. cbn. now rewrite <- app_assoc. }
  destruct (R callbacks nw) as [E M'].
  split; [exact E|]. split; [exact M'|].
  intros i cb L. unfold notificationsReady.
  rewrite E, nth_error_app2 by lia.
  replace (length (ready nw) + i - length (ready nw))%nat with i by lia.
  rewrite L. now destruct (cb _ _).
Qed.

End FurtherProperties.

(** * The end of a listener token *)
Section TokenProperties.
Context {S : Type} `{CBLNativeListeners S}.

Lemma destroyed_at (m : list (option (Callable S))) :
  forall a c, nth_error m a = Some c -> nth_error (destroyed a m) a = Some None.
Proof.
  induction m as [|x m IH]; intros [|a] c L; cbn in *; try discriminate.
  - reflexivity.
  - now apply (IH a c).
Qed.

(** Once its token is destroyed a listener's context is dead: an event
    the engine still delivered on it would go to a freed object. *)
Lemma callListener_after_token_destroyed (l : ListenerToken) (w : World S)
    (c : option (Callable S)) (db : pointer) (nDocs : N)
    (docIDs : list FLString) :
  nth_error (mem w) (ListenerToken_context l) = Some c ->
  let w' := snd (ListenerToken_destructor l w) in
  nth_error (mem w') (ListenerToken_context l) = Some None
  /\ fst (Database__callListener (ListenerToken_context l) db nDocs docIDs w')
     = Undefined.
Proof.
  intros L. cbv zeta.
  assert (D : nth_error (mem (snd (ListenerToken_destructor l w)))
                (ListenerToken_context l) = Some None).
  { unfold ListenerToken_destructor, bind, native_step, destroy. cbn.
    now apply (destroyed_at _ _ c). }
  split; [exact D|].
  unfold Database__callListener, bind, vector_of_range.
  destruct (_ <=? _)%nat; [|reflexivity].
  unfold ret, ListenerToken_call. now rewrite D.
Qed.

End TokenProperties.

(** * Further concrete runs *)

#[local] Existing Instance ToyFiles.engine_files.

(** The Batch of a scope on the database: begun, then ended by its
    destructor. *)
Lemma Batch_begin_end_balanced_witness :
  let w1 := mkWorld (Toy.mkState [("doc1", 1)] [("doc1", 1); ("doc1", 0)]
                       1 ["d1"] [] None)
                    [] [EvBeginBatch (Some 0%N)] in
  let '(_, b', w') :=
    Batch_history [(ByDestructor, mkRuntime 0 None)] (mkBatch Toy.db) w1 in
  b' = ended
  /\ batch_events w' = [EvEndBatch (Some 0%N); EvBeginBatch (Some 0%N)].
Proof.
  exact (Batch_begin_end_balanced Toy.db (Toy.world Toy.s0)
           (mkWorld (Toy.mkState [("doc1", 1)] [("doc1", 1); ("doc1", 0)]
                       1 ["d1"] [] None)
                    [] [EvBeginBatch (Some 0%N)])
           (mkBatch Toy.db) ByDestructor (mkRuntime 0 None) []
           eq_refl eq_refl).
Defined.

(** A Batch on an empty Database: the engine has one batch open and is
    never asked to end it. *)
Lemma Batch_on_empty_Database_never_ends_witness :
  let w1 := snd (Batch_new (mkDatabase None) (Toy.world Toy.s0)) in
  Toy.batches (native w1) = 1%nat
  /\ Batch_history [(ExplicitEnd, mkRuntime 0 None);
                    (ByDestructor, mkRuntime 0 None)]
                   (mkBatch (mkDatabase None)) w1
     = ([Returned tt; Returned tt], ended, w1).
Proof.
  cbv zeta. split; [reflexivity|].
  pose proof (Batch_on_empty_Database_never_ends (mkDatabase None)
    (Toy.world Toy.s0)
    (snd (Batch_new (mkDatabase None) (Toy.world Toy.s0)))
    (mkBatch (mkDatabase None))
    [(ExplicitEnd, mkRuntime 0 None); (ByDestructor, mkRuntime 0 None)]
    eq_refl eq_refl) as [_ T].
  exact T.
Defined.

(** The file of the database is gone: both native deletes fail with
    error code 0. *)
Lemma deleteDatabase_static_and_member_differ_witness :
  fst (Database_deleteDatabase "d1" "/tmp" (Toy.world ToyFiles.no_file))
    = Returned tt
  /\ fst (Database_deleteDatabase_member Toy.db (Toy.world ToyFiles.no_file))
     = Thrown (ExnCBL Toy.no_error).
Proof.
  exact (deleteDatabase_static_and_member_differ Toy.db "d1" "/tmp"
           (Toy.world ToyFiles.no_file) Toy.no_error ToyFiles.no_file
           Toy.no_error ToyFiles.no_file eq_refl eq_refl eq_refl eq_refl).
Defined.

(** The engine announces five ids over an array of one. *)
Lemma callListener_count_bounds_witness :
  let w := snd (Database_addListener Toy.db Toy.on_change (Toy.world Toy.s0)) in
  Database__callListener 0 (Some 0%N) 5 ["doc1"] w = (Undefined, w).
Proof.
  cbv zeta.
  pose proof (callListener_count_bounds Toy.on_change 0 (Some 0%N) ["doc1"]
    (snd (Database_addListener Toy.db Toy.on_change (Toy.world Toy.s0)))
    eq_refl) as [B _].
  apply B. vm_compute. lia.
Defined.
